(** * GLSLPostProcessor: the shader post-processing pipeline of filamat

    A shallow embedding of [GLSLPostProcessor.cpp]: the optimization pass
    planner ([createOptimizer], [registerSizePasses],
    [registerPerformancePasses]), the Metal binding remapper
    ([msl::getBindingIndexMap], [spirvToToMsl]) and the pipeline driver
    ([process], [preprocessOptimization], [fullOptimization],
    [optimizeSpirv]).

    glslang, SPIRV-Tools and SPIRV-Cross are external collaborators: they
    enter the model as the operations of the class [External]; the control
    flow, the log lines, the output slots and the binding map are the
    code's own and are modelled as written. *)

From Stdlib Require Import ZArith Lia.
From stdpp Require Import base option list gmap strings pretty.

Local Open Scope string_scope.
Local Open Scope list_scope.
Local Open Scope Z_scope.

(** ** Enumerations of the material system *)

(** Modelled from the spec: [backend::ShaderStage] is declared in a header
    that is not part of the sources; the spec lists
    shaderStage ∈ {vertex, fragment} and [process] switches on these two. *)
Inductive ShaderStage := VERTEX | FRAGMENT.

(** Modelled from the spec: [backend::ShaderModel], shaderModel ∈ {mobile,
    desktop}; [glslVersionFromShaderModel] switches on these two. *)
Inductive ShaderModel := MOBILE | DESKTOP.

(** Modelled from the spec: [MaterialBuilder::TargetApi]; the code names
    [OPENGL] (the native-dialect API) and [METAL]; [VULKAN] stands for the
    remaining binary-IR-capable API. *)
Inductive TargetApi := OPENGL | VULKAN | METAL.

(** Modelled from the spec: [MaterialBuilder::TargetLanguage]; [GLSL] is the
    native source dialect with no binary output, [SPIRV] goes through the
    binary IR. *)
Inductive TargetLanguage := GLSL | SPIRV.

(** Modelled from the spec: [MaterialBuilder::Optimization],
    optimizationLevel ∈ {none, preprocessOnly, size, performance}; these are
    the four cases of the switch in [process]. *)
Inductive Optimization := NONE | PREPROCESSOR | SIZE | PERFORMANCE.

(** Modelled from the spec: [MaterialDomain], the two cases of the switch in
    [msl::getBindingIndexMap]. *)
Inductive MaterialDomain := SURFACE | POST_PROCESS.

(** glslang's stage tag, as far as [process] assigns it. *)
Inductive EShLanguage := EShLangVertex | EShLangFragment.

#[global] Instance ShaderStage_eq_dec : EqDecision ShaderStage.
Proof. solve_decision. Defined.
#[global] Instance ShaderModel_eq_dec : EqDecision ShaderModel.
Proof. solve_decision. Defined.
#[global] Instance TargetApi_eq_dec : EqDecision TargetApi.
Proof. solve_decision. Defined.
#[global] Instance TargetLanguage_eq_dec : EqDecision TargetLanguage.
Proof. solve_decision. Defined.
#[global] Instance Optimization_eq_dec : EqDecision Optimization.
Proof. solve_decision. Defined.
#[global] Instance MaterialDomain_eq_dec : EqDecision MaterialDomain.
Proof. solve_decision. Defined.
#[global] Instance EShLanguage_eq_dec : EqDecision EShLanguage.
Proof. solve_decision. Defined.

(** ** The compilation request *)

(** [SamplerInterfaceBlock::SamplerInfo], as far as the binding map reads
    it. *)
Record SamplerInfo := mkSamplerInfo { uniformName : string }.

(** [SamplerInterfaceBlock]: [getStageFlags] (a [ShaderStageFlags] bit mask,
    tested only through [hasShaderType]) and [getSamplerInfoList] (the
    declared samplers, in declaration order). *)
Record SamplerInterfaceBlock := mkSib {
  getStageFlags : Z;
  getSamplerInfoList : list SamplerInfo
}.

Record MaterialInfo := mkMaterialInfo { sib : SamplerInterfaceBlock }.

(** [GLSLPostProcessor::Config], the fields the file reads. [variant] is the
    key of [filament::Variant], passed on to [SibGenerator::getSib];
    [materialInfo] is the pointee of [config.materialInfo]. *)
Record Config := mkConfig {
  variant : Z;
  targetApi : TargetApi;
  targetLanguage : TargetLanguage;
  shaderType : ShaderStage;
  shaderModel : ShaderModel;
  domain : MaterialDomain;
  materialInfo : MaterialInfo;
  hasFramebufferFetch : bool;
  glsl_subpassInputToColorLocation : list (Z * Z)
}.

(** ** The optimization pass planner *)

(** One constructor per SPIRV-Tools pass factory the file names; the factory
    arguments written in the source are kept ([None] is the factory's default
    argument). [CreateEliminateDeadMembersPass] is the factory of the
    commented-out registration in [registerSizePasses]. *)
Inductive Pass :=
| CreateWrapOpKillPass
| CreateDeadBranchElimPass
| CreateMergeReturnPass
| CreateInlineExhaustivePass
| CreateAggressiveDCEPass
| CreatePrivateToLocalPass
| CreateLocalSingleBlockLoadStoreElimPass
| CreateLocalSingleStoreElimPass
| CreateScalarReplacementPass (size_limit : option Z)
| CreateLocalAccessChainConvertPass
| CreateLocalMultiStoreElimPass
| CreateCCPPass
| CreateRedundancyEliminationPass
| CreateCombineAccessChainsPass
| CreateSimplificationPass
| CreateVectorDCEPass
| CreateDeadInsertElimPass
| CreateIfConversionPass
| CreateCopyPropagateArraysPass
| CreateReduceLoadSizePass
| CreateBlockMergePass
| CreateEliminateDeadFunctionsPass
| CreateLoopUnrollPass (fully_unroll : bool)
| CreateCFGCleanupPass
| CreateConvertRelaxedToHalfPass
| CreateEliminateDeadMembersPass.

#[global] Instance Pass_eq_dec : EqDecision Pass.
Proof. solve_decision. Defined.

(** [spvtools::Optimizer]: the registered passes, in registration order. *)
Record Optimizer := mkOptimizer { passes : list Pass }.

(** [Optimizer::RegisterPass] appends to the pass list and returns the
    optimizer, which is how the source chains it. *)
Definition RegisterPass (optimizer : Optimizer) (p : Pass) : Optimizer :=
  mkOptimizer (passes optimizer ++ [p]).

Notation "o '.>' p" := (RegisterPass o p) (at level 45, left associativity).

Definition registerPerformancePasses (optimizer : Optimizer)
    (config : Config) : Optimizer :=
  let optimizer :=
    optimizer
      .> CreateWrapOpKillPass
      .> CreateDeadBranchElimPass in
  let optimizer :=
    if bool_decide (shaderModel config ≠ DESKTOP)
       || bool_decide (targetApi config ≠ OPENGL)
    then optimizer .> CreateMergeReturnPass
    else optimizer in
  optimizer
    .> CreateInlineExhaustivePass
    .> CreateAggressiveDCEPass
    .> CreatePrivateToLocalPass
    .> CreateLocalSingleBlockLoadStoreElimPass
    .> CreateLocalSingleStoreElimPass
    .> CreateAggressiveDCEPass
    .> CreateScalarReplacementPass None
    .> CreateLocalAccessChainConvertPass
    .> CreateLocalSingleBlockLoadStoreElimPass
    .> CreateLocalSingleStoreElimPass
    .> CreateAggressiveDCEPass
    .> CreateLocalMultiStoreElimPass
    .> CreateAggressiveDCEPass
    .> CreateCCPPass
    .> CreateAggressiveDCEPass
    .> CreateRedundancyEliminationPass
    .> CreateCombineAccessChainsPass
    .> CreateSimplificationPass
    .> CreateVectorDCEPass
    .> CreateDeadInsertElimPass
    .> CreateDeadBranchElimPass
    .> CreateSimplificationPass
    .> CreateIfConversionPass
    .> CreateCopyPropagateArraysPass
    .> CreateReduceLoadSizePass
    .> CreateAggressiveDCEPass
    .> CreateBlockMergePass
    .> CreateRedundancyEliminationPass
    .> CreateDeadBranchElimPass
    .> CreateBlockMergePass
    .> CreateSimplificationPass.

Definition registerSizePasses (optimizer : Optimizer)
    (config : Config) : Optimizer :=
  let optimizer :=
    optimizer
      .> CreateWrapOpKillPass
      .> CreateDeadBranchElimPass in
  let optimizer :=
    if bool_decide (shaderModel config ≠ DESKTOP)
    then optimizer .> CreateMergeReturnPass
    else optimizer in
  optimizer
    .> CreateInlineExhaustivePass
    .> CreateEliminateDeadFunctionsPass
    .> CreatePrivateToLocalPass
    .> CreateScalarReplacementPass (Some 0)
    .> CreateLocalMultiStoreElimPass
    .> CreateCCPPass
    .> CreateLoopUnrollPass true
    .> CreateDeadBranchElimPass
    .> CreateSimplificationPass
    .> CreateScalarReplacementPass (Some 0)
    .> CreateLocalSingleStoreElimPass
    .> CreateIfConversionPass
    .> CreateSimplificationPass
    .> CreateAggressiveDCEPass
    .> CreateDeadBranchElimPass
    .> CreateBlockMergePass
    .> CreateLocalAccessChainConvertPass
    .> CreateLocalSingleBlockLoadStoreElimPass
    .> CreateAggressiveDCEPass
    .> CreateCopyPropagateArraysPass
    .> CreateVectorDCEPass
    .> CreateDeadInsertElimPass
    .> CreateLocalSingleStoreElimPass
    .> CreateBlockMergePass
    .> CreateLocalMultiStoreElimPass
    .> CreateRedundancyEliminationPass
    .> CreateSimplificationPass
    .> CreateAggressiveDCEPass
    .> CreateCFGCleanupPass.

(** [createOptimizer]: the message consumer it installs is
    [optimizerMessageConsumer] below, applied by [optimizeSpirv] to the
    messages of the run. *)
Definition createOptimizer (optimization : Optimization)
    (config : Config) : Optimizer :=
  let optimizer := mkOptimizer [] in
  if bool_decide (optimization = SIZE) then
    registerSizePasses optimizer config
  else if bool_decide (optimization = PERFORMANCE) then
    let optimizer := registerPerformancePasses optimizer config in
    if bool_decide (targetApi config = METAL) then
      optimizer
        .> CreateConvertRelaxedToHalfPass
        .> CreateSimplificationPass
        .> CreateRedundancyEliminationPass
        .> CreateAggressiveDCEPass
    else optimizer
  else optimizer.

(** ** Data of the external toolkits *)

(** [SpirvBlob] is [std::vector<uint32_t>]: a sequence of 32-bit words. *)
Abbreviation SpirvBlob := (list Z).

Record SpvOptions := mkSpvOptions { generateDebugInfo : bool }.

Inductive spv_message_level_t :=
| SPV_MSG_FATAL
| SPV_MSG_INTERNAL_ERROR
| SPV_MSG_ERROR
| SPV_MSG_WARNING
| SPV_MSG_INFO
| SPV_MSG_DEBUG.

Record spv_position_t := mkPosition {
  pos_line : N;
  pos_column : N;
  pos_index : N
}.

(** One call of the optimizer's message consumer; [msg_source] and
    [msg_message] are nullable C strings. *)
Record SpvMessage := mkSpvMessage {
  msg_level : spv_message_level_t;
  msg_source : option string;
  msg_position : spv_position_t;
  msg_message : option string
}.

(** [spirv_cross::Resource], of which the remapper reads [id]. *)
Record Resource := mkResource { id : Z }.

(** [spirv_cross::ShaderResources], the two lists [spirvToToMsl] walks. *)
Record ShaderResources := mkShaderResources {
  sampled_images : list Resource;
  uniform_buffers : list Resource
}.

Inductive Decoration := DecorationDescriptorSet | DecorationBinding.

Record MSLResourceBinding := mkMSLResourceBinding {
  stage : Z;
  desc_set : Z;
  binding : Z;
  msl_buffer : Z;
  msl_texture : Z;
  msl_sampler : Z
}.

Inductive Platform := iOS | macOS.

Record MSLOptions := mkMSLOptions {
  platform : Platform;
  msl_version : Z;
  use_framebuffer_fetch_subpasses : bool
}.

Inductive Precision := Mediump | Highp.

Record GLSLOptions := mkGLSLOptions {
  es : bool;
  version : Z;
  enable_420pack_extension : bool;
  fragment_default_float_precision : Precision;
  fragment_default_int_precision : Precision
}.

(** [CompilerMSL]: the module it was built from, the options set on it
    ([None] until the setter is called) and the resource bindings added so
    far, in the order of the calls. *)
Record CompilerMSL := mkCompilerMSL {
  msl_ir : SpirvBlob;
  msl_common_options : option GLSLOptions;
  msl_options : option MSLOptions;
  msl_resource_bindings : list MSLResourceBinding
}.

(** [CompilerGLSL]: module, options, header lines and framebuffer-fetch
    remaps, in the order of the calls. *)
Record CompilerGLSL := mkCompilerGLSL {
  glsl_ir : SpirvBlob;
  glsl_options : option GLSLOptions;
  glsl_header_lines : list string;
  glsl_ext_framebuffer_fetch : list (Z * Z * bool)
}.

(** ** The external collaborators

    Everything the file calls but does not define. The glslang objects are
    abstract states; an operation that mutates its receiver returns the new
    state. [TProgram_link] also returns the shader added to the program: the
    program holds a pointer to it and linking finalizes it in place. *)
Class External := {
  (* filament *)
  hasShaderType : Z → ShaderStage → bool;
  SamplerBindingPoints_count : nat;
  PER_MATERIAL_INSTANCE : nat;
  SibGenerator_getSib : nat → Z → option SamplerInterfaceBlock;
  (* build configuration *)
  NDEBUG : bool;
  (* glslang *)
  TShader : Type;
  TProgram : Type;
  TIntermediate : Type;
  TShader_new : EShLanguage → TShader;
  TShader_setStrings : TShader → string → TShader;
  TShader_parse : TShader → Z → Z → bool * TShader;
  TShader_preprocess : TShader → Z → Z → bool * string * TShader;
  TShader_getInfoLog : TShader → string;
  TShader_getIntermediate : TShader → TIntermediate;
  TShader_getStage : TShader → EShLanguage;
  TProgram_new : TProgram;
  TProgram_addShader : TProgram → TShader → TProgram;
  TProgram_link : TProgram → TShader → Z → bool * TProgram * TShader;
  TProgram_getIntermediate : TProgram → EShLanguage → TIntermediate;
  EShMsgVulkanRules : Z;
  GlslangToSpv : TIntermediate → SpirvBlob → SpvOptions → SpirvBlob;
  GLSLTools_glslangVersionFromShaderModel : ShaderModel → Z;
  GLSLTools_glslangFlagsFromTargetApi : TargetApi → TargetLanguage → Z;
  GLSLTools_prepareShaderParser :
    TargetApi → TargetLanguage → TShader → EShLanguage → Z → TShader;
  GLSLTools_textureLodBias : TShader → TShader;
  (* SPIRV-Tools *)
  Optimizer_Run : Optimizer → SpirvBlob → bool * SpirvBlob * list SpvMessage;
  spirvbin_remap_DCE_ALL : SpirvBlob → SpirvBlob;
  (* SPIRV-Cross *)
  make_msl_version : Z → Z → Z;
  default_common_options : GLSLOptions;
  get_execution_model : SpirvBlob → Z;
  get_shader_resources : SpirvBlob → ShaderResources;
  get_decoration : SpirvBlob → Z → Decoration → Z;
  get_name : SpirvBlob → Z → string;
  CompilerMSL_compile : CompilerMSL → string;
  CompilerGLSL_compile : CompilerGLSL → string;
  (* ShaderMinifier *)
  removeWhitespace : string → string;
  renameStructFields : string → string
}.

(** ** The binding index map (namespace [msl]) *)

Module msl.
Section BindingIndexMap.
Context `{External}.

(** [BindingIndexMap] is [std::unordered_map<std::string, uint16_t>]: a
    [gmap string Z] whose values are kept below [2^16]. *)

(** [map[name] = map.size()]: the right operand of the assignment is
    evaluated first (C++17), so the value is the size before [operator[]]
    inserts the key, converted to [uint16_t]; a key that is already there
    is overwritten, not skipped. *)
Definition assignNext (map : gmap string Z) (name : string) : gmap string Z :=
  <[name := Z.of_nat (size map) mod 65536]> map.

Definition generateBindingIndexMap (config : Config)
    (sib : SamplerInterfaceBlock) (map : gmap string Z) : gmap string Z :=
  let stageFlags := getStageFlags sib in
  if hasShaderType stageFlags (shaderType config) then
    let infoList := getSamplerInfoList sib in
    foldl (λ map info, assignNext map (uniformName info)) map infoList
  else map.

(** The loop over [blockIndex] of the [SURFACE] case. *)
Definition surfaceBlocks (config : Config) (map : gmap string Z)
    : gmap string Z :=
  foldl
    (λ map blockIndex,
       if bool_decide (blockIndex ≠ PER_MATERIAL_INSTANCE) then
         match SibGenerator_getSib blockIndex (variant config) with
         | Some sib => generateBindingIndexMap config sib map
         | None => map
         end
       else map)
    map (seq 0 SamplerBindingPoints_count).

(** The [SURFACE] case has no [break]: it falls through to
    [POST_PROCESS], which only breaks. *)
Definition getBindingIndexMap (config : Config) : gmap string Z :=
  let map : gmap string Z := ∅ in
  let map :=
    match domain config with
    | SURFACE => surfaceBlocks config map
    | POST_PROCESS => map
    end in
  generateBindingIndexMap config (sib (materialInfo config)) map.

(** The names the enumeration registers, in registration order: the
    samplers of every block that is not [PER_MATERIAL_INSTANCE], exists
    for the variant and is active for the stage, then those of the
    material's own block. This follows the description of the
    enumeration, for comparison with [getBindingIndexMap]. *)
Definition namesOfBlock (config : Config) (sib : SamplerInterfaceBlock)
    : list string :=
  if hasShaderType (getStageFlags sib) (shaderType config)
  then uniformName <$> getSamplerInfoList sib
  else [].

Definition registeredNames (config : Config) : list string :=
  (match domain config with
   | SURFACE =>
       concat
         ((λ blockIndex,
             if bool_decide (blockIndex ≠ PER_MATERIAL_INSTANCE) then
               match SibGenerator_getSib blockIndex (variant config) with
               | Some sib => namesOfBlock config sib
               | None => []
               end
             else []) <$> seq 0 SamplerBindingPoints_count)
   | POST_PROCESS => []
   end) ++ namesOfBlock config (sib (materialInfo config)).

(** The indices of a map are dense below [k]: exactly the indices
    [0 .. k-1] are assigned, and no index is assigned to two names. *)
Definition dense (map : gmap string Z) (k : nat) : Prop :=
  (∀ i : Z, (∃ name, map !! name = Some i) ↔ 0 ≤ i < Z.of_nat k) ∧
  (∀ a b i, map !! a = Some i → map !! b = Some i → a = b).

End BindingIndexMap.
End msl.


(** ** Outputs, log and faults

    [process] writes through three nullable pointers and to the global log.
    [Outputs] holds the pointees: [None] is a null pointer, [Some v] a
    pointer to an object that currently holds [v]; the three objects are
    taken to be distinct. A run also yields the chronological list of what
    it did: log lines, calls into the front end and the optimizer, and
    every store to an output. *)

Inductive Slot := NativeSource | BinaryIR | CrossSource.

Inductive Event :=
| Log_e (text : string)        (* slog.e << text << io::endl *)
| Log_i (text : string)        (* slog.i << text << io::endl *)
| Parsed (ok : bool)           (* TShader::parse returned ok *)
| Linked (ok : bool)           (* TProgram::link returned ok *)
| Preprocessed (ok : bool)     (* TShader::preprocess returned ok *)
| OptimizerRan (ok : bool)     (* Optimizer::Run returned ok *)
| DeadObjectsSwept             (* spirvbin_t::remap(spirv, DCE_ALL) *)
| Stored (slot : Slot).        (* a store through an output pointer *)

#[global] Instance Slot_eq_dec : EqDecision Slot.
Proof. solve_decision. Defined.
#[global] Instance Event_eq_dec : EqDecision Event.
Proof. solve_decision. Defined.

Record Outputs := mkOutputs {
  outputGlsl : option string;
  outputSpirv : option SpirvBlob;
  outputMsl : option string
}.

(** What stops a run other than a [return]: a store or load through a null
    pointer, [std::out_of_range] from [unordered_map::at], and a failed
    [assert_invariant]. *)
Inductive Fault :=
| NullDereference
| OutOfRange (key : string)
| AssertionFailed.

(** How a run ends: with a value or with a fault, in both cases with the
    outputs as they stand and the events of the run. *)
Inductive Outcome (A : Type) :=
| Returned (a : A) (out : Outputs) (events : list Event)
| Aborted (f : Fault) (out : Outputs) (events : list Event).
Arguments Returned {A} a out events.
Arguments Aborted {A} f out events.

Definition events {A} (o : Outcome A) : list Event :=
  match o with
  | Returned _ _ evs => evs
  | Aborted _ _ evs => evs
  end.

Definition outputs {A} (o : Outcome A) : Outputs :=
  match o with
  | Returned _ out _ => out
  | Aborted _ out _ => out
  end.

(** [after evs o]: the outcome [o] of a continuation that ran after [evs]
    had happened. *)
Definition after {A} (evs : list Event) (o : Outcome A) : Outcome A :=
  match o with
  | Returned a out evs' => Returned a out (evs ++ evs')
  | Aborted f out evs' => Aborted f out (evs ++ evs')
  end.

(** The monad the driver runs in: state (the outputs), output (the
    events) and faults. *)
Definition M (A : Type) : Type := Outputs → Outcome A.

#[global] Instance M_ret : MRet M := λ A a out, Returned a out [].
#[global] Instance M_bind : MBind M := λ A B k m out,
  match m out with
  | Returned a out' evs => after evs (k a out')
  | Aborted f out' evs => Aborted f out' evs
  end.

Definition abort {A} (f : Fault) : M A := λ out, Aborted f out [].

Definition emit (e : Event) : M unit := λ out, Returned tt out [e].

Definition slog_e (text : string) : M unit := emit (Log_e text).
Definition slog_i (text : string) : M unit := emit (Log_i text).

Definition when (b : bool) (m : M unit) : M unit :=
  if b then m else mret tt.

Definition liftR {A} (r : Fault + A) : M A :=
  match r with
  | inl f => abort f
  | inr a => mret a
  end.

(** [bool(p)] of a pointer. *)
Definition non_null {A} (p : option A) : bool :=
  match p with
  | Some _ => true
  | None => false
  end.

(** [if (internalConfig.xOutput)]: is the pointer non-null. *)
Definition requested (slot : Slot) : M bool := λ out,
  Returned
    match slot with
    | NativeSource => non_null (outputGlsl out)
    | BinaryIR => non_null (outputSpirv out)
    | CrossSource => non_null (outputMsl out)
    end out [].

(** [internalConfig.spirvOutput] as a pointer value. *)
Definition spirvOutput_ptr : M (option SpirvBlob) := λ out,
  Returned (outputSpirv out) out [].

(** [*internalConfig.glslOutput] as an rvalue. *)
Definition load_glsl : M string := λ out,
  match outputGlsl out with
  | Some s => Returned s out []
  | None => Aborted NullDereference out []
  end.

Definition load_spirv : M SpirvBlob := λ out,
  match outputSpirv out with
  | Some b => Returned b out []
  | None => Aborted NullDereference out []
  end.

Definition load_msl : M string := λ out,
  match outputMsl out with
  | Some s => Returned s out []
  | None => Aborted NullDereference out []
  end.

(** [*internalConfig.glslOutput = s]. *)
Definition store_glsl (s : string) : M unit := λ out,
  match outputGlsl out with
  | Some _ =>
      Returned tt (mkOutputs (Some s) (outputSpirv out) (outputMsl out))
        [Stored NativeSource]
  | None => Aborted NullDereference out []
  end.

Definition store_spirv (b : SpirvBlob) : M unit := λ out,
  match outputSpirv out with
  | Some _ =>
      Returned tt (mkOutputs (outputGlsl out) (Some b) (outputMsl out))
        [Stored BinaryIR]
  | None => Aborted NullDereference out []
  end.

Definition store_msl (s : string) : M unit := λ out,
  match outputMsl out with
  | Some _ =>
      Returned tt (mkOutputs (outputGlsl out) (outputSpirv out) (Some s))
        [Stored CrossSource]
  | None => Aborted NullDereference out []
  end.

(** A range-for loop whose body runs in [M]. *)
Fixpoint for_each {A} (body : A → M unit) (l : list A) : M unit :=
  match l with
  | [] => mret tt
  | x :: l' => body x;; for_each body l'
  end.

(** ** The pipeline *)

(** The members of [GLSLPostProcessor] set by its constructor. *)
Record GLSLPostProcessor := mkGLSLPostProcessor {
  mOptimization : Optimization;
  mPrintShaders : bool;
  mGenerateDebugInfo : bool
}.

(** [GLSLPostProcessor::InternalConfig] without the three output pointers,
    which live in [Outputs], and without the minifier, which is stateless
    here. *)
Record InternalConfig := mkInternalConfig {
  shLang : EShLanguage;
  langVersion : Z
}.

Definition glslVersionFromShaderModel (model : ShaderModel) : Z :=
  match model with
  | MOBILE => 300
  | DESKTOP => 410
  end.

Section Pipeline.
Context `{External}.

Definition filterSpvOptimizerMessage (level : spv_message_level_t) : bool :=
  if NDEBUG then
    match level with
    | SPV_MSG_WARNING | SPV_MSG_INFO | SPV_MSG_DEBUG => false
    | _ => true
    end
  else true.

Definition stringifySpvOptimizerMessage (level : spv_message_level_t)
    (source : option string) (position : spv_position_t)
    (message : option string) : string :=
  let levelString :=
    match level with
    | SPV_MSG_FATAL => "FATAL"
    | SPV_MSG_INTERNAL_ERROR => "INTERNAL ERROR"
    | SPV_MSG_ERROR => "ERROR"
    | SPV_MSG_WARNING => "WARNING"
    | SPV_MSG_INFO => "INFO"
    | SPV_MSG_DEBUG => "DEBUG"
    end in
  levelString +:+ ": "
    +:+ (match source with Some s => s +:+ ":" | None => "" end)
    +:+ pretty (pos_line position) +:+ ":"
    +:+ pretty (pos_column position) +:+ ":"
    +:+ pretty (pos_index position) +:+ ": "
    +:+ (match message with Some m => m | None => "" end).

(** The lambda [createOptimizer] passes to [SetMessageConsumer]. *)
Definition optimizerMessageConsumer (m : SpvMessage) : M unit :=
  if negb (filterSpvOptimizerMessage (msg_level m)) then mret tt
  else
    slog_e (stringifySpvOptimizerMessage (msg_level m) (msg_source m)
              (msg_position m) (msg_message m)).

(** [assert_invariant] is a macro of a header that is not among the
    sources; it is taken to abort on a false condition unless [NDEBUG] is
    defined, the build flag the file itself tests. *)
Definition assert_invariant (e : bool) : M unit :=
  if NDEBUG || e then mret tt else abort AssertionFailed.

(** *** Cross-translation to MSL *)

Definition add_msl_resource_binding (mslCompiler : CompilerMSL)
    (newBinding : MSLResourceBinding) : CompilerMSL :=
  mkCompilerMSL (msl_ir mslCompiler) (msl_common_options mslCompiler)
    (msl_options mslCompiler)
    (msl_resource_bindings mslCompiler ++ [newBinding]).

(** [map->at(name)]: throws [std::out_of_range] when the key is absent. *)
Definition at_ (map : gmap string Z) (name : string) : Fault + Z :=
  match map !! name with
  | Some index => inr index
  | None => inl (OutOfRange name)
  end.

(** The lambda [updateResourceBinding] of [spirvToToMsl]; [map] is its
    defaulted pointer argument, [None] for [nullptr]. It returns the
    compiler with the new binding added. *)
Definition updateResourceBinding (executionModel : Z)
    (mslCompiler : CompilerMSL) (resource : Resource)
    (map : option (gmap string Z)) : Fault + CompilerMSL :=
  let set :=
    get_decoration (msl_ir mslCompiler) (id resource)
      DecorationDescriptorSet in
  let binding :=
    get_decoration (msl_ir mslCompiler) (id resource) DecorationBinding in
  let index :=
    match map with
    | Some map => at_ map (get_name (msl_ir mslCompiler) (id resource))
    | None => inr binding
    end in
  match index with
  | inl fault => inl fault
  | inr index =>
      inr (add_msl_resource_binding mslCompiler
             {| stage := executionModel;
                desc_set := set;
                binding := binding;
                msl_buffer := index;
                msl_texture := index;
                msl_sampler := index |})
  end.

(** [for (const auto& resource : resources) updateResourceBinding(resource,
    map)]. *)
Fixpoint updateResourceBindings (executionModel : Z)
    (mslCompiler : CompilerMSL) (resources : list Resource)
    (map : option (gmap string Z)) : Fault + CompilerMSL :=
  match resources with
  | [] => inr mslCompiler
  | resource :: resources =>
      match updateResourceBinding executionModel mslCompiler resource map with
      | inl fault => inl fault
      | inr mslCompiler =>
          updateResourceBindings executionModel mslCompiler resources map
      end
  end.

(** The two loops of [spirvToToMsl]: the sampled images against the
    binding index map, then the uniform buffers without a map. *)
Definition remapResources (config : Config) (mslCompiler : CompilerMSL)
    : Fault + CompilerMSL :=
  let executionModel := get_execution_model (msl_ir mslCompiler) in
  let resources := get_shader_resources (msl_ir mslCompiler) in
  let bindingIndexMap := msl.getBindingIndexMap config in
  match updateResourceBindings executionModel mslCompiler
          (sampled_images resources) (Some bindingIndexMap) with
  | inl fault => inl fault
  | inr mslCompiler =>
      updateResourceBindings executionModel mslCompiler
        (uniform_buffers resources) None
  end.

Definition mslOptionsFor (config : Config) : MSLOptions :=
  let platform :=
    if bool_decide (shaderModel config = MOBILE) then iOS else macOS in
  let mslOptions :=
    {| platform := platform;
       msl_version :=
         if bool_decide (shaderModel config = MOBILE)
         then make_msl_version 2 0 else make_msl_version 2 2;
       use_framebuffer_fetch_subpasses := false |} in
  if hasFramebufferFetch config then
    {| platform := platform;
       msl_version :=
         if bool_decide (shaderModel config = DESKTOP)
         then make_msl_version 2 3 else msl_version mslOptions;
       use_framebuffer_fetch_subpasses := true |}
  else mslOptions.

(** The compiler object of [spirvToToMsl] once its options are set, before
    the bindings are added. *)
Definition newCompilerMSL (config : Config) (spirv : SpirvBlob)
    : CompilerMSL :=
  mkCompilerMSL spirv (Some default_common_options)
    (Some (mslOptionsFor config)) [].

(** [spirvToToMsl(spirv, outMsl, config, minifier)]: [spirv] is the
    pointer argument, dereferenced by the constructor of the compiler;
    [outMsl] is always [internalConfig.mslOutput]. *)
Definition spirvToToMsl (spirv : option SpirvBlob) (config : Config)
    : M unit :=
  match spirv with
  | None => abort NullDereference
  | Some spirv =>
      let mslCompiler := newCompilerMSL config spirv in
      mslCompiler ← liftR (remapResources config mslCompiler);
      store_msl (CompilerMSL_compile mslCompiler);;
      outMsl ← load_msl;
      store_msl (removeWhitespace outMsl)
  end.

(** *** The optimizer run *)

(** [optimizeSpirv]: the result is the new content of [spirv]. The
    messages of the run reach the log through the consumer before [Run]
    returns. *)
Definition optimizeSpirv (optimizer : Optimizer) (spirv : SpirvBlob)
    : M SpirvBlob :=
  let '(ok, spirv, messages) := Optimizer_Run optimizer spirv in
  for_each optimizerMessageConsumer messages;;
  emit (OptimizerRan ok);;
  if negb ok then
    slog_e "SPIR-V optimizer pass failed";;
    mret spirv
  else
    emit DeadObjectsSwept;;
    mret (spirvbin_remap_DCE_ALL spirv).

Definition glslOptionsFor (config : Config) : GLSLOptions :=
  let es := bool_decide (shaderModel config = MOBILE) in
  let version := glslVersionFromShaderModel (shaderModel config) in
  {| es := es;
     version := version;
     enable_420pack_extension := (420 <=? version)%Z;
     fragment_default_float_precision := if es then Mediump else Highp;
     fragment_default_int_precision := if es then Mediump else Highp |}.

(** The compiler object of [fullOptimization] once its options, header
    line and framebuffer-fetch remaps are set. *)
Definition newCompilerGLSL (config : Config) (tShader : TShader)
    (spirv : SpirvBlob) : CompilerGLSL :=
  let glslOptions := glslOptionsFor config in
  mkCompilerGLSL spirv (Some glslOptions)
    (if negb (es glslOptions)
     then ["#extension GL_ARB_shading_language_packing : enable"]
     else [])
    (if bool_decide (TShader_getStage tShader = EShLangFragment)
        && es glslOptions
     then (λ i, (i.1, i.2, true)) <$> glsl_subpassInputToColorLocation config
     else []).

Definition fullOptimization (self : GLSLPostProcessor) (tShader : TShader)
    (config : Config) (internalConfig : InternalConfig) : M unit :=
  let spirv : SpirvBlob := [] in
  let options := {| generateDebugInfo := mGenerateDebugInfo self |} in
  let spirv := GlslangToSpv (TShader_getIntermediate tShader) spirv options in
  let optimizer := createOptimizer (mOptimization self) config in
  spirv ← optimizeSpirv optimizer spirv;
  spirvOutput ← requested BinaryIR;
  when spirvOutput (store_spirv spirv);;
  mslOutput ← requested CrossSource;
  when mslOutput (spirvToToMsl (Some spirv) config);;
  glslOutput ← requested NativeSource;
  when glslOutput
    (let glslCompiler := newCompilerGLSL config tShader spirv in
     store_glsl (CompilerGLSL_compile glslCompiler)).

(** *** The front end, as [process] and [preprocessOptimization] drive it *)

Definition shLangOf (config : Config) : EShLanguage :=
  match shaderType config with
  | VERTEX => EShLangVertex
  | FRAGMENT => EShLangFragment
  end.

(** [msg] of [process]: the flags of the target, with the Vulkan rules
    forced by framebuffer fetch. *)
Definition processMessages (config : Config) : Z :=
  let msg :=
    GLSLTools_glslangFlagsFromTargetApi (targetApi config)
      (targetLanguage config) in
  if hasFramebufferFetch config
  then Z.lor msg EShMsgVulkanRules
  else msg.

(** [process], from the declaration of [tShader] to [tShader.parse]: the
    result of the parse and the shader as the parse leaves it. *)
Definition parseInput (inputShader : string) (config : Config)
    : bool * TShader :=
  let shLang := shLangOf config in
  let tShader := TShader_new shLang in
  let tShader := TShader_setStrings tShader inputShader in
  let langVersion :=
    GLSLTools_glslangVersionFromShaderModel (shaderModel config) in
  let tShader :=
    GLSLTools_prepareShaderParser (targetApi config) (targetLanguage config)
      tShader shLang langVersion in
  TShader_parse tShader langVersion (processMessages config).

(** [process], from the texture lod bias to [program.link]: the result of
    the link, the program and the shader as the link leaves them. *)
Definition linkInput (config : Config) (tShader : TShader)
    : bool * TProgram * TShader :=
  let program := TProgram_new in
  let tShader :=
    if bool_decide (shaderType config = FRAGMENT)
       && bool_decide (domain config = SURFACE)
    then GLSLTools_textureLodBias tShader
    else tShader in
  let program := TProgram_addShader program tShader in
  TProgram_link program tShader (processMessages config).

(** [msg] of [preprocessOptimization]: the flags of the target alone. *)
Definition preprocessMessages (config : Config) : Z :=
  GLSLTools_glslangFlagsFromTargetApi (targetApi config)
    (targetLanguage config).

(** [tShader.preprocess] of [preprocessOptimization]: its result, the text
    it wrote to [glsl], and the shader as it leaves it. *)
Definition preprocessInput (config : Config) (tShader : TShader)
    : bool * string * TShader :=
  let version :=
    GLSLTools_glslangVersionFromShaderModel (shaderModel config) in
  TShader_preprocess tShader version (preprocessMessages config).

(** [preprocessOptimization], the parse and link of the preprocessed text:
    the two results, the program and the shader. The link runs whatever the
    parse returned. *)
Definition reparse (config : Config) (internalConfig : InternalConfig)
    (glsl : string) : bool * bool * TProgram * TShader :=
  let program := TProgram_new in
  let spirvShader := TShader_new (shLang internalConfig) in
  let spirvShader := TShader_setStrings spirvShader glsl in
  let spirvShader :=
    GLSLTools_prepareShaderParser (targetApi config) (targetLanguage config)
      spirvShader (shLang internalConfig) (langVersion internalConfig) in
  let '(ok, spirvShader) :=
    TShader_parse spirvShader (langVersion internalConfig)
      (preprocessMessages config) in
  let program := TProgram_addShader program spirvShader in
  let '(linkOk, program, spirvShader) :=
    TProgram_link program spirvShader (preprocessMessages config) in
  (ok, linkOk, program, spirvShader).

(** *** The preprocess-only path *)

Definition preprocessOptimization (self : GLSLPostProcessor)
    (tShader : TShader) (config : Config) (internalConfig : InternalConfig)
    : M unit :=
  spirvOutput ← requested BinaryIR;
  assert_invariant
    (Bool.eqb spirvOutput (bool_decide (targetApi config ≠ OPENGL)));;
  let '(ok, glsl, tShader) := preprocessInput config tShader in
  emit (Preprocessed ok);;
  when (negb ok) (slog_e (TShader_getInfoLog tShader));;
  when spirvOutput
    (let '(ok, linkOk, program, spirvShader) :=
       reparse config internalConfig glsl in
     emit (Parsed ok);;
     emit (Linked linkOk);;
     if negb ok || negb linkOk then
       slog_e (TShader_getInfoLog spirvShader)
     else
       let options := {| generateDebugInfo := mGenerateDebugInfo self |} in
       spirv ← load_spirv;
       store_spirv
         (GlslangToSpv
            (TProgram_getIntermediate program (shLang internalConfig))
            spirv options));;
  mslOutput ← requested CrossSource;
  when mslOutput
    (spirv ← spirvOutput_ptr;
     spirvToToMsl spirv config);;
  glslOutput ← requested NativeSource;
  when glslOutput (store_glsl glsl).

(** *** The driver *)

(** The [NONE] case of the switch in [process]. *)
Definition noOptimization (self : GLSLPostProcessor) (program : TProgram)
    (config : Config) (internalConfig : InternalConfig) : M unit :=
  spirvOutput ← requested BinaryIR;
  if (spirvOutput : bool) then
    let options := {| generateDebugInfo := mGenerateDebugInfo self |} in
    spirv ← load_spirv;
    store_spirv
      (GlslangToSpv
         (TProgram_getIntermediate program (shLang internalConfig))
         spirv options);;
    mslOutput ← requested CrossSource;
    when mslOutput
      (spirv ← spirvOutput_ptr;
       spirvToToMsl spirv config)
  else
    slog_e "GLSL post-processor invoked with optimization level NONE".

(** The switch on [mOptimization] in [process]. *)
Definition optimizationSwitch (self : GLSLPostProcessor)
    (program : TProgram) (tShader : TShader) (config : Config)
    (internalConfig : InternalConfig) : M unit :=
  match mOptimization self with
  | NONE => noOptimization self program config internalConfig
  | PREPROCESSOR => preprocessOptimization self tShader config internalConfig
  | SIZE | PERFORMANCE => fullOptimization self tShader config internalConfig
  end.

(** The tail of [process], after the switch: the minifier runs on the
    native-source slot whenever that slot was passed. *)
Definition finalizeGlsl (self : GLSLPostProcessor) : M unit :=
  glslOutput ← requested NativeSource;
  when glslOutput
    (glsl ← load_glsl;
     store_glsl (removeWhitespace glsl);;
     when (bool_decide (mOptimization self ≠ NONE))
       (glsl ← load_glsl;
        store_glsl (renameStructFields glsl));;
     when (mPrintShaders self)
       (glsl ← load_glsl;
        slog_i glsl)).

Definition process (self : GLSLPostProcessor) (inputShader : string)
    (config : Config) : M bool :=
  if bool_decide (targetLanguage config = GLSL) then
    store_glsl inputShader;;
    when (mPrintShaders self)
      (glsl ← load_glsl;
       slog_i glsl);;
    mret true
  else
    let internalConfig :=
      {| shLang := shLangOf config;
         langVersion :=
           GLSLTools_glslangVersionFromShaderModel (shaderModel config) |} in
    let '(ok, tShader) := parseInput inputShader config in
    emit (Parsed ok);;
    if negb ok then
      slog_e (TShader_getInfoLog tShader);;
      mret false
    else
      let '(linkOk, program, tShader) := linkInput config tShader in
      emit (Linked linkOk);;
      if negb linkOk then
        slog_e (TShader_getInfoLog tShader);;
        mret false
      else
        optimizationSwitch self program tShader config internalConfig;;
        finalizeGlsl self;;
        mret true.

End Pipeline.

(** ** The shape of a remapped binding *)

Section RemappedBinding.
Context `{External}.

(** What [updateResourceBinding] adds for a sampled image: the three
    resource-class indices are the index the map gives to the name. *)
Definition samplerBindingOf (ir : SpirvBlob) (map : gmap string Z)
    (r : Resource) (b : MSLResourceBinding) : Prop :=
  map !! get_name ir (id r) = Some (msl_texture b)
  ∧ msl_sampler b = msl_texture b
  ∧ msl_buffer b = msl_texture b
  ∧ binding b = get_decoration ir (id r) DecorationBinding
  ∧ desc_set b = get_decoration ir (id r) DecorationDescriptorSet.

(** What it adds for a uniform buffer: the three indices are the binding
    decoration of the resource. *)
Definition bufferBindingOf (ir : SpirvBlob) (r : Resource)
    (b : MSLResourceBinding) : Prop :=
  msl_texture b = get_decoration ir (id r) DecorationBinding
  ∧ msl_sampler b = get_decoration ir (id r) DecorationBinding
  ∧ msl_buffer b = get_decoration ir (id r) DecorationBinding
  ∧ binding b = get_decoration ir (id r) DecorationBinding
  ∧ desc_set b = get_decoration ir (id r) DecorationDescriptorSet.

(** The remap of the cross-translation of the module behind [spirv]
    completes: the pointer is not null and every lookup succeeds. *)
Definition crossTranslates (config : Config) (spirv : option SpirvBlob)
    : Prop :=
  ∃ blob mslCompiler,
    spirv = Some blob
    ∧ remapResources config (newCompilerMSL config blob) = inr mslCompiler.

End RemappedBinding.

(** ** A scripted toolkit

  A concrete [External] whose front end, optimizer and reflection follow a
  script: enough to run [process] on concrete requests. *)

Module Scripted.

Record Script := mkScript {
  sc_parse : string → bool;
  sc_link : string → bool;
  sc_preprocess : string → bool * string;
  sc_lower : string → SpirvBlob;
  sc_run : SpirvBlob → bool * SpirvBlob;
  sc_name : Z → string;
  sc_blocks : list (option SamplerInterfaceBlock);
  sc_per_material_instance : nat;
  sc_ndebug : bool
}.

(** The scripted shader object: its source text and its info log. *)
Record Shader := mkShader { sh_text : string; sh_log : string }.

Definition toolkit (sc : Script) : External := {|
  hasShaderType flags st :=
    Z.testbit flags (match st with VERTEX => 0 | FRAGMENT => 1 end);
  SamplerBindingPoints_count := length (sc_blocks sc);
  PER_MATERIAL_INSTANCE := sc_per_material_instance sc;
  SibGenerator_getSib blockIndex _ := mjoin (sc_blocks sc !! blockIndex);
  NDEBUG := sc_ndebug sc;
  TShader := Shader;
  TProgram := unit;
  TIntermediate := string;
  TShader_new _ := mkShader "" "";
  TShader_setStrings _ text := mkShader text "";
  TShader_parse sh _ _ :=
    if sc_parse sc (sh_text sh) then (true, sh)
    else (false, mkShader (sh_text sh) "ERROR: parse failed");
  TShader_preprocess sh _ _ :=
    let '(ok, text) := sc_preprocess sc (sh_text sh) in
    (ok, text,
     if ok then sh else mkShader (sh_text sh) "ERROR: preprocess failed");
  TShader_getInfoLog := sh_log;
  TShader_getIntermediate := sh_text;
  TShader_getStage _ := EShLangFragment;
  TProgram_new := tt;
  TProgram_addShader p _ := p;
  TProgram_link p sh _ := (sc_link sc (sh_text sh), p, sh);
  TProgram_getIntermediate _ _ := "";
  EShMsgVulkanRules := 16;
  GlslangToSpv text spirv _ := (spirv ++ sc_lower sc text)%list;
  GLSLTools_glslangVersionFromShaderModel model :=
    match model with MOBILE => 100 | DESKTOP => 110 end;
  GLSLTools_glslangFlagsFromTargetApi _ _ := 0;
  GLSLTools_prepareShaderParser _ _ sh _ _ := sh;
  GLSLTools_textureLodBias sh := sh;
  Optimizer_Run _ spirv := (sc_run sc spirv, []);
  spirvbin_remap_DCE_ALL spirv := spirv;
  make_msl_version major minor := major * 10000 + minor * 100;
  default_common_options := mkGLSLOptions false 450 false Highp Highp;
  get_execution_model _ := 4;
  get_shader_resources spirv :=
    mkShaderResources
      (mkResource <$> filter (λ w, (w < 100)%Z) spirv)
      (mkResource <$> filter (λ w, (100 ≤ w)%Z) spirv);
  get_decoration _ i d :=
    match d with DecorationDescriptorSet => 0 | DecorationBinding => i end;
  get_name _ i := sc_name sc i;
  CompilerMSL_compile c := "msl";
  CompilerGLSL_compile c := "glsl";
  removeWhitespace s := s;
  renameStructFields s := s
|}.

(** A script under which every step succeeds and nothing is registered. *)
Definition plain : Script := {|
  sc_parse _ := true;
  sc_link _ := true;
  sc_preprocess text := (true, text);
  sc_lower _ := [119734787];
  sc_run spirv := (true, spirv);
  sc_name _ := "";
  sc_blocks := [];
  sc_per_material_instance := 0;
  sc_ndebug := true
|}.

(** The optimizer fails and leaves the module as it got it. *)
Definition failingOptimizer : Script := {|
  sc_parse _ := true;
  sc_link _ := true;
  sc_preprocess text := (true, text);
  sc_lower _ := [119734787];
  sc_run spirv := (false, spirv);
  sc_name _ := "";
  sc_blocks := [];
  sc_per_material_instance := 0;
  sc_ndebug := true
|}.

(** The front end rejects every source. *)
Definition rejecting : Script := {|
  sc_parse _ := false;
  sc_link _ := true;
  sc_preprocess text := (true, text);
  sc_lower _ := [119734787];
  sc_run spirv := (true, spirv);
  sc_name _ := "";
  sc_blocks := [];
  sc_per_material_instance := 0;
  sc_ndebug := true
|}.

(** Every source parses and none links. The link leaves the shader as the
    parse left it, with an empty info log. *)
Definition unlinkable : Script := {|
  sc_parse _ := true;
  sc_link _ := false;
  sc_preprocess text := (true, text);
  sc_lower _ := [119734787];
  sc_run spirv := (true, spirv);
  sc_name _ := "";
  sc_blocks := [];
  sc_per_material_instance := 0;
  sc_ndebug := true
|}.

(** The preprocessor fails and leaves an empty text, which then fails to
    parse. *)
Definition brokenPreprocessor : Script := {|
  sc_parse text := bool_decide (text ≠ "");
  sc_link _ := true;
  sc_preprocess _ := (false, "");
  sc_lower _ := [119734787];
  sc_run spirv := (true, spirv);
  sc_name _ := "";
  sc_blocks := [];
  sc_per_material_instance := 0;
  sc_ndebug := true
|}.

(** The module words below 100 are sampled images; image 1 is named a. *)
Definition named : Script := {|
  sc_parse _ := true;
  sc_link _ := true;
  sc_preprocess text := (true, text);
  sc_lower _ := [1; 100];
  sc_run spirv := (true, spirv);
  sc_name i := if bool_decide (i = 1) then "a" else "";
  sc_blocks := [];
  sc_per_material_instance := 0;
  sc_ndebug := true
|}.

(** All three output pointers passed, the objects behind them empty. *)
Definition allSlots : Outputs := mkOutputs (Some "") (Some []) (Some "").

Definition sibOf (flags : Z) (names : list string) : SamplerInterfaceBlock :=
  mkSib flags (mkSamplerInfo <$> names).

Definition request (api : TargetApi) (lang : TargetLanguage)
    (names : list string) : Config := {|
  variant := 0;
  targetApi := api;
  targetLanguage := lang;
  shaderType := FRAGMENT;
  shaderModel := DESKTOP;
  domain := POST_PROCESS;
  materialInfo := mkMaterialInfo (sibOf 3 names);
  hasFramebufferFetch := false;
  glsl_subpassInputToColorLocation := []
|}.

End Scripted.

(** ** The web sample: pointer events and environment upload

    [samples/web/filaweb.cpp]. The entry point [mouse] and
    [Application::mouse] are modelled whole; what they do to ImGui and to
    the camera manipulator is the list of [Effect]s of a call, and the two
    function-local statics are the state. Of [getSkyLight] the loop that
    uploads the mip levels of the environment map is modelled, as the list
    of the [Texture::setImage] calls it makes. *)

Module filaweb.

(** What a call of [Application::mouse] does, in program order. The wheel
    fields of ImGui are floats that the code only increments or decrements
    by one. The position fields are floats too: [SetMousePos] carries the
    two values as the fields hold them after the store, which are
    integers. *)
Inductive Effect :=
| AddMouseWheelH (d : Z)             (* io.MouseWheelH += d *)
| AddMouseWheel (d : Z)              (* io.MouseWheel += d *)
| SetMousePos (x y : Z)              (* io.MousePos.x = x; io.MousePos.y = y *)
| SetMouseDown (i : nat) (down : bool)  (* io.MouseDown[i] = down *)
| dolly (delta : Z)                  (* mManipulator.dolly(delta) *)
| rotate (delta : Z * Z).            (* mManipulator.rotate(delta) *)

#[global] Instance Effect_eq_dec : EqDecision Effect.
Proof. solve_decision. Defined.

(** The statics of [Application::mouse]. The position is a [double2] whose
    components are converted [uint32_t] values: integers below [2^32],
    which a double holds exactly, as it does their differences; they are
    kept in [Z]. *)
Record MouseStatics := mkMouseStatics {
  previousMousePosition : Z * Z;
  previousMouseButtons : Z
}.

(** The conversion of a [uint32_t] to [float] that the stores to
    [io.MousePos] perform: the nearest value with a 24-bit significand,
    ties to the even significand. A value below [2^24] is kept; above, [e]
    is the position of the leading bit and [ulp] the spacing of the floats
    around the value. *)
Definition float_of_uint32 (x : Z) : Z :=
  let e := Z.log2 x in
  if bool_decide (e < 24) then x
  else
    let ulp := 2 ^ (e - 23) in
    let q := x / ulp in
    let r := x mod ulp in
    if bool_decide (2 * r < ulp) then q * ulp
    else if bool_decide (ulp < 2 * r) then (q + 1) * ulp
    else if Z.even q then q * ulp
    else (q + 1) * ulp.

(** [-y] on a [uint32_t]. *)
Definition neg_uint32 (y : Z) : Z := (- y) mod 2 ^ 32.

(** [-wy] on an [int32_t], wrapping to the 32-bit two's complement range
    (the negation of the least value is the value itself). *)
Definition neg_int32 (wy : Z) : Z := (- wy + 2 ^ 31) mod 2 ^ 32 - 2 ^ 31.

(** [Application::mouse(x, y, wx, wy, buttons)]. [WantCaptureMouse] is the
    flag of ImGui the call reads; [statics] is [None] until the first call
    has initialized the two statics, which it does from its own
    arguments. *)
Definition Application_mouse (WantCaptureMouse : bool)
    (statics : option MouseStatics) (x y wx wy buttons : Z)
    : list Effect * option MouseStatics :=
  let io :=
    (if bool_decide (wx > 0) then [AddMouseWheelH 1] else [])
      ++ (if bool_decide (wx < 0) then [AddMouseWheelH (-1)] else [])
      ++ (if bool_decide (wy > 0) then [AddMouseWheel 1] else [])
      ++ (if bool_decide (wy < 0) then [AddMouseWheel (-1)] else [])
      ++ [SetMousePos (float_of_uint32 x) (float_of_uint32 y);
          SetMouseDown 0 (bool_decide (Z.land buttons 1 ≠ 0));
          SetMouseDown 1 (bool_decide (Z.land buttons 2 ≠ 0));
          SetMouseDown 2 (bool_decide (Z.land buttons 4 ≠ 0))] in
  let y := neg_uint32 y in
  let wy := neg_int32 wy in
  let statics :=
    match statics with
    | Some statics => statics
    | None => mkMouseStatics (x, y) buttons
    end in
  let delta :=
    (x - (previousMousePosition statics).1,
     y - (previousMousePosition statics).2) in
  (io
     ++ [dolly wy]
     ++ (if negb WantCaptureMouse
            && bool_decide (buttons = 1)
            && bool_decide (buttons = previousMouseButtons statics)
         then [rotate delta] else []),
   Some (mkMouseStatics (x, y) buttons)).

(** The exported [mouse(x, y, wx, wy, buttons)]: five [int]s. The clamped
    coordinates convert to [uint32_t] unchanged; [buttons] converts to
    [uint16_t]. *)
Definition mouse (WantCaptureMouse : bool) (statics : option MouseStatics)
    (x y wx wy buttons : Z) : list Effect * option MouseStatics :=
  let x := Z.max 0 x in
  let y := Z.max 0 y in
  Application_mouse WantCaptureMouse statics x y wx wy (buttons mod 2 ^ 16).

(** [Texture::FaceOffsets]. *)
Record FaceOffsets := mkFaceOffsets {
  px : Z; nx : Z; py : Z; ny : Z; pz : Z; nz : Z
}.

(** One [texture->setImage(engine, level, buffer, offsets)] of the
    environment loop, with the size of the buffer it allocates, which is
    also the number of bytes it copies from the blob of that level. *)
Record ImageUpload := mkImageUpload {
  level : Z;
  buffer_size : Z;
  offsets : FaceOffsets
}.

(** [size_t] arithmetic of the 32-bit web target. *)
Definition size_t (z : Z) : Z := z mod 2 ^ 32.

(** The body of the loop for one level and the current [size]. *)
Definition envUpload (mip size : Z) : ImageUpload :=
  let faceSize := size_t (size_t (size * size) * 4) in
  {| level := mip;
     buffer_size := size_t (faceSize * 6);
     offsets :=
       {| px := size_t (faceSize * 0);
          nx := size_t (faceSize * 1);
          py := size_t (faceSize * 2);
          ny := size_t (faceSize * 3);
          pz := size_t (faceSize * 4);
          nz := size_t (faceSize * 5) |} |}.

(** [for (uint32_t mip = ...; mip < nmips; ++mip, size >>= 1)], with
    [remaining] iterations to go. *)
Fixpoint envLoop (remaining : nat) (mip size : Z) : list ImageUpload :=
  match remaining with
  | O => []
  | S remaining =>
      envUpload mip size :: envLoop remaining (mip + 1) (Z.shiftr size 1)
  end.

(** The uploads of the indirect-light texture in [getSkyLight]:
    [size] starts at [info.pixelWidth] and [mip] at 0. *)
Definition envUploads (pixelWidth nmips : Z) : list ImageUpload :=
  envLoop (Z.to_nat nmips) 0 (size_t pixelWidth).

End filaweb.

(** * Properties *)

(** Membership in a list written out with [++] and [::]. *)
Ltac find_in :=
  first
    [ apply list_elem_of_here
    | apply list_elem_of_further; find_in
    | apply elem_of_app; left; find_in
    | apply elem_of_app; right; find_in ].

Ltac in_cases Hin :=
  repeat (apply elem_of_app in Hin as [Hin | Hin]
          || apply elem_of_cons in Hin as [Hin | Hin]
          || apply elem_of_nil in Hin as []);
  try discriminate.

(** ** The pass planner *)

Section PassPlanner.

Lemma passes_RegisterPass optimizer p :
  passes (optimizer .> p) = passes optimizer ++ [p].
Proof. reflexivity. Qed.

(** The size sequence is appended to what the optimizer already holds. *)
Lemma registerSizePasses_app optimizer config :
  passes (registerSizePasses optimizer config)
  = passes optimizer ++ passes (registerSizePasses (mkOptimizer []) config).
Proof.
  unfold registerSizePasses.
  destruct (bool_decide (shaderModel config ≠ DESKTOP));
    rewrite !passes_RegisterPass, <- !(assoc_L (++)); reflexivity.
Qed.

Lemma registerPerformancePasses_app optimizer config :
  passes (registerPerformancePasses optimizer config)
  = passes optimizer
      ++ passes (registerPerformancePasses (mkOptimizer []) config).
Proof.
  unfold registerPerformancePasses.
  destruct (bool_decide (shaderModel config ≠ DESKTOP)
            || bool_decide (targetApi config ≠ OPENGL));
    rewrite !passes_RegisterPass, <- !(assoc_L (++)); reflexivity.
Qed.

(** C3, as the code has it. Both pass lists begin with kill-wrapping and
    dead-branch elimination. The return-merging pass is in the PERFORMANCE
    list unless the shader model is DESKTOP and the target API is OpenGL; it
    is in the SIZE list unless the shader model is DESKTOP, whatever the
    target API. Where it is present it is the third pass, where it is absent
    the third pass is the inliner. *)
Theorem merge_return_by_level_and_target (config : Config) :
  (take 2 (passes (createOptimizer SIZE config))
     = [CreateWrapOpKillPass; CreateDeadBranchElimPass]
   ∧ take 2 (passes (createOptimizer PERFORMANCE config))
     = [CreateWrapOpKillPass; CreateDeadBranchElimPass])
  ∧ (CreateMergeReturnPass ∈ passes (createOptimizer PERFORMANCE config)
     ↔ ¬ (shaderModel config = DESKTOP ∧ targetApi config = OPENGL))
  ∧ (CreateMergeReturnPass ∈ passes (createOptimizer SIZE config)
     ↔ shaderModel config ≠ DESKTOP)
  ∧ passes (createOptimizer PERFORMANCE config) !! 2%nat
    = Some (if bool_decide (shaderModel config = DESKTOP
                            ∧ targetApi config = OPENGL)
            then CreateInlineExhaustivePass else CreateMergeReturnPass)
  ∧ passes (createOptimizer SIZE config) !! 2%nat
    = Some (if bool_decide (shaderModel config = DESKTOP)
            then CreateInlineExhaustivePass else CreateMergeReturnPass).
Proof.
  destruct config as [v api lang st model dom mi fb sub].
  destruct api, model; cbn;
    repeat split; try reflexivity; try (intros _; compute_done);
    try (intros Hin; exfalso; revert Hin; compute_done);
    try (intros Hin [? ?]; discriminate);
    try (intros Hin; discriminate);
    try (intros Hin; exfalso; apply Hin; auto; fail);
    try (intros Hin; exfalso; apply Hin; split; reflexivity).
Qed.

(** C3, as stated, fails for a SIZE build with the DESKTOP shader model on
    Vulkan: this is not a desktop-OpenGL PERFORMANCE build, and the SIZE list
    has no return-merging pass. *)
Lemma merge_return_skipped_for_size_desktop_vulkan :
  let config := Scripted.request VULKAN SPIRV [] in
  ¬ (SIZE = PERFORMANCE ∧ shaderModel config = DESKTOP
     ∧ targetApi config = OPENGL)
  ∧ CreateMergeReturnPass ∉ passes (createOptimizer SIZE config).
Proof.
  split; [intros [? _]; discriminate | compute_done].
Qed.

(** C7. At level PERFORMANCE the pass list is the shared performance
    sequence followed, for the Metal target only, by the
    relaxed-precision-to-half conversion, simplification, redundancy
    elimination and aggressive dead-code elimination, in this order; for any
    other target nothing is appended and the conversion pass is not in the
    list. *)
Theorem performance_appends_half_precision_round_for_metal (config : Config) :
  passes (createOptimizer PERFORMANCE config)
  = passes (registerPerformancePasses (mkOptimizer []) config)
      ++ (if bool_decide (targetApi config = METAL)
          then [CreateConvertRelaxedToHalfPass; CreateSimplificationPass;
                CreateRedundancyEliminationPass; CreateAggressiveDCEPass]
          else [])
  ∧ (CreateConvertRelaxedToHalfPass
       ∉ passes (registerPerformancePasses (mkOptimizer []) config))
  ∧ (CreateConvertRelaxedToHalfPass
       ∈ passes (createOptimizer PERFORMANCE config)
     ↔ targetApi config = METAL).
Proof.
  destruct config as [v api lang st model dom mi fb sub].
  destruct api, model; cbn;
    repeat split; try reflexivity; try compute_done;
    try (intros _; compute_done);
    try (intros Hin; exfalso; revert Hin; compute_done);
    try (intros; discriminate).
Qed.

(** C8. For every configuration, the SIZE pass list has no dead-struct-member
    elimination pass: neither the list [createOptimizer] builds for SIZE nor
    what [registerSizePasses] adds to any optimizer. *)
Theorem size_passes_exclude_dead_member_elimination
    (config : Config) (optimizer : Optimizer) :
  (CreateEliminateDeadMembersPass ∉ passes (createOptimizer SIZE config))
  ∧ (CreateEliminateDeadMembersPass
       ∈ passes (registerSizePasses optimizer config)
     ↔ CreateEliminateDeadMembersPass ∈ passes optimizer).
Proof.
  assert (Hfresh : CreateEliminateDeadMembersPass
                     ∉ passes (registerSizePasses (mkOptimizer []) config)).
  { destruct config as [v api lang st model dom mi fb sub].
    destruct model; compute_done. }
  split; [exact Hfresh |].
  rewrite registerSizePasses_app, elem_of_app. tauto.
Qed.

End PassPlanner.

(** ** The binding index map *)

Section BindingIndexMapFacts.
Context `{External}.

Lemma foldl_assignNext_names (infoList : list SamplerInfo) (map : gmap string Z) :
  foldl (λ map info, msl.assignNext map (uniformName info)) map infoList
  = foldl msl.assignNext map (uniformName <$> infoList).
Proof.
  revert map. induction infoList as [|info infoList IH]; intros map; cbn;
    [reflexivity | apply IH].
Qed.

Lemma generateBindingIndexMap_names config sib (map : gmap string Z) :
  msl.generateBindingIndexMap config sib map
  = foldl msl.assignNext map (msl.namesOfBlock config sib).
Proof.
  unfold msl.generateBindingIndexMap, msl.namesOfBlock.
  destruct (hasShaderType _ _); [apply foldl_assignNext_names | reflexivity].
Qed.

(** The map [getBindingIndexMap] returns is the fold of [assignNext] over
    the registered names, in registration order. *)
Lemma getBindingIndexMap_registeredNames config :
  msl.getBindingIndexMap config
  = foldl msl.assignNext ∅ (msl.registeredNames config).
Proof.
  unfold msl.getBindingIndexMap, msl.registeredNames.
  rewrite generateBindingIndexMap_names, foldl_app. f_equal.
  destruct (domain config); [| reflexivity].
  unfold msl.surfaceBlocks.
  generalize (∅ : gmap string Z) as map.
  induction (seq 0 SamplerBindingPoints_count) as [|blockIndex l IH];
    intros map; [reflexivity |].
  cbn [foldl fmap list_fmap concat]. rewrite foldl_app, IH. f_equal.
  destruct (bool_decide (blockIndex ≠ PER_MATERIAL_INSTANCE));
    [| reflexivity].
  destruct (SibGenerator_getSib blockIndex (variant config));
    [apply generateBindingIndexMap_names | reflexivity].
Qed.

(** Registering pairwise distinct names, at most [2^16] of them, gives the
    [j]-th name the index [j]. *)
Lemma foldl_assignNext_distinct (names : list string) :
  NoDup names → Z.of_nat (length names) ≤ 65536 →
  let map := foldl msl.assignNext (∅ : gmap string Z) names in
  size map = length names
  ∧ ∀ name i, map !! name = Some i
              ↔ ∃ j : nat, i = Z.of_nat j ∧ names !! j = Some name.
Proof.
  induction names as [|name names IH] using rev_ind; intros Hnd Hlen.
  - cbn. split; [apply map_size_empty |].
    intros name i. rewrite lookup_empty. split; [discriminate |].
    intros (j & _ & Hj). discriminate.
  - apply NoDup_app in Hnd as (Hnd & Hfresh & _).
    rewrite length_app, Nat2Z.inj_add in Hlen. cbn in Hlen.
    destruct IH as [Hsize Hlook]; [exact Hnd | lia |].
    rewrite foldl_app. cbn [foldl].
    set (map := foldl msl.assignNext ∅ names) in *.
    unfold msl.assignNext.
    assert (Hnone : map !! name = None).
    { destruct (map !! name) as [i|] eqn:Hi; [| reflexivity].
      apply Hlook in Hi as (j & _ & Hj).
      exfalso. apply (Hfresh name); [| apply list_elem_of_here].
      eapply list_elem_of_lookup_2; exact Hj. }
    rewrite Hsize, Z.mod_small by lia.
    split.
    + rewrite map_size_insert_None, Hsize, length_app by exact Hnone.
      cbn. lia.
    + intros name' i. rewrite lookup_insert. case_decide as Heq.
      * subst name'. split.
        -- intros [= <-]. exists (length names). split; [reflexivity |].
           apply list_lookup_middle. reflexivity.
        -- intros (j & -> & Hj). apply lookup_snoc_Some in Hj as [[Hlt Hj]|[-> _]];
             [| reflexivity].
           exfalso. apply (Hfresh name); [| apply list_elem_of_here].
           eapply list_elem_of_lookup_2; exact Hj.
      * rewrite Hlook. split.
        -- intros (j & -> & Hj). exists j. split; [reflexivity |].
           rewrite lookup_app_l; [exact Hj |].
           eapply lookup_lt_Some; exact Hj.
        -- intros (j & -> & Hj). exists j. split; [reflexivity |].
           apply lookup_snoc_Some in Hj as [[_ Hj]|[_ Hj]];
             [exact Hj | congruence].
Qed.

(** C5, as the code has it. When the names the enumeration registers are
    pairwise distinct and there are at most 65536 of them (the index is a
    [uint16_t]), the indices of the binding index map are exactly
    0 .. k-1 with no gaps or duplicates, k being the number of registered
    names, which is also the size of the map. *)
Theorem binding_indices_dense_for_distinct_names (config : Config) :
  NoDup (msl.registeredNames config) →
  Z.of_nat (length (msl.registeredNames config)) ≤ 65536 →
  msl.dense (msl.getBindingIndexMap config)
    (length (msl.registeredNames config))
  ∧ size (msl.getBindingIndexMap config)
    = length (msl.registeredNames config).
Proof.
  intros Hnd Hlen. rewrite getBindingIndexMap_registeredNames.
  destruct (foldl_assignNext_distinct _ Hnd Hlen) as [Hsize Hlook].
  split; [| exact Hsize]. split.
  - intros i. split.
    + intros (name & Hname). apply Hlook in Hname as (j & -> & Hj).
      apply lookup_lt_Some in Hj. lia.
    + intros Hi.
      destruct (lookup_lt_is_Some_2 (msl.registeredNames config) (Z.to_nat i))
        as [name Hname]; [lia |].
      exists name. apply Hlook. exists (Z.to_nat i). split; [lia | exact Hname].
  - intros a b i Ha Hb.
    apply Hlook in Ha as (ja & -> & Hja). apply Hlook in Hb as (jb & Heq & Hjb).
    apply Nat2Z.inj in Heq. subst jb. congruence.
Qed.

End BindingIndexMapFacts.

(** C5, as stated, fails when a name is registered twice: with the names
    a, b, a there are two distinct names, the second registration of a
    overwrites its index with the size of the map at that point, and the
    map ends as a ↦ 2, b ↦ 1, so index 2 is assigned and index 0 is not. *)
Lemma binding_indices_not_dense_for_repeated_name :
  let toolkit := Scripted.toolkit Scripted.plain in
  let config := Scripted.request METAL SPIRV ["a"; "b"; "a"] in
  msl.registeredNames config = ["a"; "b"; "a"]
  ∧ length (remove_dups (msl.registeredNames config)) = 2%nat
  ∧ msl.getBindingIndexMap config !! "a" = Some 2
  ∧ msl.getBindingIndexMap config !! "b" = Some 1
  ∧ ¬ msl.dense (msl.getBindingIndexMap config)
        (length (remove_dups (msl.registeredNames config))).
Proof.
  cbv zeta.
  assert (Ha : @msl.getBindingIndexMap (Scripted.toolkit Scripted.plain)
                 (Scripted.request METAL SPIRV ["a"; "b"; "a"]) !! "a"
               = Some 2) by (vm_compute; reflexivity).
  repeat split; try (vm_compute; reflexivity); try exact Ha.
  intros [Hrange _].
  assert (Hlen : length (remove_dups
                   (@msl.registeredNames (Scripted.toolkit Scripted.plain)
                      (Scripted.request METAL SPIRV ["a"; "b"; "a"])))
                 = 2%nat) by (vm_compute; reflexivity).
  rewrite Hlen in Hrange.
  destruct (proj1 (Hrange 2)) as [_ Hlt]; [exists "a"; exact Ha | lia].
Qed.

(** The names of the material block of the scripted request are distinct
    and registered in order. *)
Lemma binding_indices_dense_witness :
  let toolkit := Scripted.toolkit Scripted.plain in
  let config := Scripted.request METAL SPIRV ["a"; "b"; "c"] in
  msl.dense (msl.getBindingIndexMap config) 3
  ∧ size (msl.getBindingIndexMap config) = 3%nat.
Proof.
  cbv zeta.
  apply (@binding_indices_dense_for_distinct_names
           (Scripted.toolkit Scripted.plain)
           (Scripted.request METAL SPIRV ["a"; "b"; "c"])).
  - compute_done.
  - compute_done.
Defined.

(** ** The binding remapper *)

Section BindingRemapper.
Context `{External}.

Lemma updateResourceBinding_sampler executionModel mslCompiler r
    (map : gmap string Z) :
  match map !! get_name (msl_ir mslCompiler) (id r) with
  | None =>
      updateResourceBinding executionModel mslCompiler r (Some map)
      = inl (OutOfRange (get_name (msl_ir mslCompiler) (id r)))
  | Some index =>
      ∃ b, updateResourceBinding executionModel mslCompiler r (Some map)
           = inr (add_msl_resource_binding mslCompiler b)
           ∧ msl_texture b = index
           ∧ samplerBindingOf (msl_ir mslCompiler) map r b
  end.
Proof.
  unfold updateResourceBinding, at_.
  destruct (map !! get_name (msl_ir mslCompiler) (id r)) as [index|] eqn:Hat;
    [| reflexivity].
  eexists. split; [reflexivity |]. unfold samplerBindingOf. cbn.
  repeat split; auto.
Qed.

Lemma updateResourceBinding_buffer executionModel mslCompiler r :
  ∃ b, updateResourceBinding executionModel mslCompiler r None
       = inr (add_msl_resource_binding mslCompiler b)
       ∧ bufferBindingOf (msl_ir mslCompiler) r b.
Proof.
  unfold updateResourceBinding. eexists. split; [reflexivity |].
  unfold bufferBindingOf. cbn. repeat split; auto.
Qed.

(** The loop over the sampled images: it fails at the first image whose
    name the map lacks, and otherwise appends one binding per image. *)
Lemma updateResourceBindings_samplers executionModel (map : gmap string Z)
    (resources : list Resource) :
  ∀ mslCompiler,
    match updateResourceBindings executionModel mslCompiler resources
            (Some map) with
    | inl fault =>
        ∃ r, r ∈ resources
             ∧ map !! get_name (msl_ir mslCompiler) (id r) = None
             ∧ fault = OutOfRange (get_name (msl_ir mslCompiler) (id r))
    | inr mslCompiler' =>
        msl_ir mslCompiler' = msl_ir mslCompiler
        ∧ (∀ r, r ∈ resources
                → is_Some (map !! get_name (msl_ir mslCompiler) (id r)))
        ∧ ∃ bs, msl_resource_bindings mslCompiler'
                = msl_resource_bindings mslCompiler ++ bs
                ∧ Forall2 (samplerBindingOf (msl_ir mslCompiler) map)
                    resources bs
    end.
Proof.
  induction resources as [|r resources IH]; intros mslCompiler.
  - cbn. split; [reflexivity |]. split.
    + intros r Hr. apply elem_of_nil in Hr as [].
    + exists []. rewrite app_nil_r. split; [reflexivity | constructor].
  - cbn [updateResourceBindings].
    pose proof (updateResourceBinding_sampler executionModel mslCompiler r map)
      as Hstep.
    destruct (map !! get_name (msl_ir mslCompiler) (id r)) as [index|] eqn:Hat.
    + destruct Hstep as (b & -> & _ & Hb).
      specialize (IH (add_msl_resource_binding mslCompiler b)).
      destruct (updateResourceBindings _ _ resources _) as [fault|c'].
      * destruct IH as (r' & Hin & Hnone & ->).
        exists r'. split; [by apply list_elem_of_further |]. by split.
      * destruct IH as (Hir & Hall & bs & Hbs & Hf).
        cbn in Hir, Hall, Hbs, Hf. split; [exact Hir |]. split.
        -- intros r' [->|Hin]%elem_of_cons; [by rewrite Hat | by apply Hall].
        -- exists (b :: bs). split.
           ++ by rewrite Hbs, <- (assoc_L (++)).
           ++ by constructor.
    + rewrite Hstep. exists r. split; [apply list_elem_of_here | by split].
Qed.

(** The loop over the uniform buffers never fails. *)
Lemma updateResourceBindings_buffers executionModel
    (resources : list Resource) :
  ∀ mslCompiler,
    ∃ mslCompiler' bs,
      updateResourceBindings executionModel mslCompiler resources None
      = inr mslCompiler'
      ∧ msl_ir mslCompiler' = msl_ir mslCompiler
      ∧ msl_resource_bindings mslCompiler'
        = msl_resource_bindings mslCompiler ++ bs
      ∧ Forall2 (bufferBindingOf (msl_ir mslCompiler)) resources bs.
Proof.
  induction resources as [|r resources IH]; intros mslCompiler.
  - exists mslCompiler, []. cbn. rewrite app_nil_r.
    repeat split; constructor.
  - cbn [updateResourceBindings].
    destruct (updateResourceBinding_buffer executionModel mslCompiler r)
      as (b & -> & Hb).
    destruct (IH (add_msl_resource_binding mslCompiler b))
      as (c' & bs & -> & Hir & Hbs & Hf).
    cbn in Hir, Hbs, Hf.
    exists c', (b :: bs). repeat split; [exact Hir | |by constructor].
    by rewrite Hbs, <- (assoc_L (++)).
Qed.

(** C6. In the cross-translation, the remap of the resources of a module
    fails, with the out-of-range fault of the lookup, exactly when the
    binding index map lacks the name of one of the module's sampled images.
    When it succeeds it has added one binding per sampled image, whose
    texture, sampler and buffer indices are all the index the map gives to
    the image's name, followed by one binding per uniform buffer, whose
    three indices are all the buffer's own binding. The uniform buffers are
    remapped without a map: that loop succeeds on any module. *)
Theorem samplers_remapped_by_name_buffers_by_identity
    (config : Config) (mslCompiler : CompilerMSL) :
  let ir := msl_ir mslCompiler in
  let resources := get_shader_resources ir in
  let map := msl.getBindingIndexMap config in
  ((∃ fault, remapResources config mslCompiler = inl fault)
   ↔ ∃ r, r ∈ sampled_images resources ∧ map !! get_name ir (id r) = None)
  ∧ (∀ fault, remapResources config mslCompiler = inl fault →
       ∃ r, r ∈ sampled_images resources
            ∧ map !! get_name ir (id r) = None
            ∧ fault = OutOfRange (get_name ir (id r)))
  ∧ (∀ mslCompiler', remapResources config mslCompiler = inr mslCompiler' →
       ∃ samplers buffers,
         msl_resource_bindings mslCompiler'
         = msl_resource_bindings mslCompiler ++ samplers ++ buffers
         ∧ Forall2 (samplerBindingOf ir map) (sampled_images resources)
             samplers
         ∧ Forall2 (bufferBindingOf ir) (uniform_buffers resources) buffers)
  ∧ (∀ executionModel mslCompiler0,
       ∃ mslCompiler',
         updateResourceBindings executionModel mslCompiler0
           (uniform_buffers resources) None = inr mslCompiler').
Proof.
  intros ir resources map. unfold remapResources.
  fold ir. fold resources. fold map.
  pose proof (updateResourceBindings_samplers (get_execution_model ir) map
                (sampled_images resources) mslCompiler) as Hs.
  fold ir in Hs.
  destruct (updateResourceBindings _ mslCompiler (sampled_images resources) _)
    as [fault|c1].
  - destruct Hs as (r & Hin & Hnone & ->).
    split; [split; [intros _; by exists r | intros _; by eexists] |].
    split; [intros fault [= <-]; by exists r |].
    split; [intros c' [=] |].
    intros em c0.
    destruct (updateResourceBindings_buffers em (uniform_buffers resources) c0)
      as (c' & _ & -> & _). by exists c'.
  - destruct Hs as (Hir & Hall & samplers & Hbs & Hf).
    destruct (updateResourceBindings_buffers (get_execution_model ir)
                (uniform_buffers resources) c1)
      as (c2 & buffers & -> & _ & Hbs2 & Hf2).
    rewrite Hir in Hf2. fold ir in Hf2.
    split.
    { split; [intros [fault [=]] |].
      intros (r & Hin & Hnone). apply Hall in Hin as [i Hi]. congruence. }
    split; [intros fault [=] |].
    split.
    { intros c' [= <-]. exists samplers, buffers.
      split; [| by split]. by rewrite Hbs2, Hbs, <- (assoc_L (++)). }
    intros em c0.
    destruct (updateResourceBindings_buffers em (uniform_buffers resources) c0)
      as (c' & _ & -> & _). by exists c'.
Qed.

End BindingRemapper.

(** ** The driver *)

Section Driver.
Context `{External}.

Lemma events_after {A} evs (o : Outcome A) :
  events (after evs o) = evs ++ events o.
Proof. by destruct o. Qed.

Lemma outputs_after {A} evs (o : Outcome A) :
  outputs (after evs o) = outputs o.
Proof. by destruct o. Qed.

Lemma after_after {A} evs1 evs2 (o : Outcome A) :
  after evs1 (after evs2 o) = after (evs1 ++ evs2) o.
Proof. destruct o; cbn; by rewrite (assoc_L (++)). Qed.

Lemma after_nil {A} (o : Outcome A) : after [] o = o.
Proof. by destruct o. Qed.

Lemma bind_unfold {A B} (m : M A) (k : A → M B) out :
  (m ≫= k) out
  = match m out with
    | Returned a out' evs => after evs (k a out')
    | Aborted f out' evs => Aborted f out' evs
    end.
Proof. reflexivity. Qed.

Lemma bind_emit {B} e (k : M B) out :
  (emit e;; k) out = after [e] (k out).
Proof. reflexivity. Qed.

(** Off the fast path, [process] is the parse, then the link, then the
    switch and the finalizer. *)
Lemma process_off_fast_path self inputShader config out :
  targetLanguage config ≠ GLSL →
  process self inputShader config out
  = let internalConfig :=
      {| shLang := shLangOf config;
         langVersion :=
           GLSLTools_glslangVersionFromShaderModel (shaderModel config) |} in
    let parsed := parseInput inputShader config in
    let linked := linkInput config parsed.2 in
    if negb parsed.1 then
      Returned false out [Parsed false; Log_e (TShader_getInfoLog parsed.2)]
    else if negb linked.1.1 then
      Returned false out
        [Parsed true; Linked false; Log_e (TShader_getInfoLog linked.2)]
    else
      after [Parsed true; Linked true]
        ((optimizationSwitch self linked.1.2 linked.2 config internalConfig;;
          finalizeGlsl self;;
          mret true) out).
Proof.
  intros Hlang. unfold process.
  rewrite bool_decide_eq_false_2 by exact Hlang.
  cbv zeta.
  destruct (parseInput inputShader config) as [[] tShader]; cbn [fst snd negb];
    [| reflexivity].
  destruct (linkInput config tShader) as [[[] program] tShader'];
    cbn [fst snd negb]; [| reflexivity].
  rewrite !bind_emit, after_after. reflexivity.
Qed.

(** C1, as the code has it. When the target language is the source language
    (GLSL), with or without a binary-IR slot passed, [process] returns true
    having stored the input text itself in the native-source slot, with no
    call into the front end; the only other event is the echo of that text
    to the log when shaders are printed. For any other target language the
    run begins with the front end's parse of the input text, a successful
    parse is followed at once by the front end's link of the program that
    holds the parsed shader, and every store to an output slot comes after
    both, and only when both succeeded. *)
Theorem fast_path_identity_else_parse_and_link_first
    (self : GLSLPostProcessor) (inputShader : string) (config : Config)
    (out : Outputs) :
  let shLang := shLangOf config in
  let version :=
    GLSLTools_glslangVersionFromShaderModel (shaderModel config) in
  let msg := processMessages config in
  let source :=
    GLSLTools_prepareShaderParser (targetApi config) (targetLanguage config)
      (TShader_setStrings (TShader_new shLang) inputShader) shLang version in
  let parse := TShader_parse source version msg in
  let tShader :=
    if bool_decide (shaderType config = FRAGMENT)
       && bool_decide (domain config = SURFACE)
    then GLSLTools_textureLodBias parse.2
    else parse.2 in
  let link :=
    TProgram_link (TProgram_addShader TProgram_new tShader) tShader msg in
  let run := process self inputShader config out in
  (targetLanguage config = GLSL →
   is_Some (outputGlsl out) →
   run
   = Returned true
       (mkOutputs (Some inputShader) (outputSpirv out) (outputMsl out))
       (Stored NativeSource
          :: if mPrintShaders self then [Log_i inputShader] else []))
  ∧ (targetLanguage config ≠ GLSL →
     (∃ rest,
        events run = Parsed parse.1 :: rest
        ∧ (parse.1 = true → ∃ rest', rest = Linked link.1.1 :: rest'))
     ∧ ∀ before slot later,
         events run = before ++ Stored slot :: later →
         parse.1 = true
         ∧ link.1.1 = true
         ∧ ∃ between, before = Parsed true :: Linked true :: between).
Proof.
  intros shLang version msg source parse tShader link run.
  assert (Hparse : parseInput inputShader config = parse) by reflexivity.
  assert (Hlink : linkInput config parse.2 = link) by reflexivity.
  split.
  - intros Hlang [glsl0 Hslot]. subst run. unfold process.
    rewrite bool_decide_eq_true_2 by exact Hlang.
    destruct out as [g s m]. cbn in Hslot. subst g.
    destruct (mPrintShaders self); reflexivity.
  - intros Hlang. subst run.
    rewrite process_off_fast_path by exact Hlang. cbv zeta.
    rewrite Hparse, Hlink. clear Hparse Hlink.
    clearbody link. clear tShader. clearbody parse.
    destruct parse as [[] sh]; cbn [fst snd negb].
    2:{ split; [eexists; split; [reflexivity | discriminate] |].
        intros [|e1 [|e2 [|e3 before]]] slot later Hev; cbn in Hev;
          discriminate. }
    destruct link as [[[] program] sh']; cbn [fst snd negb].
    2:{ split; [eexists; split; [reflexivity | by eexists] |].
        intros [|e1 [|e2 [|e3 [|e4 before]]]] slot later Hev; cbn in Hev;
          discriminate. }
    rewrite events_after. split.
    + eexists. split; [reflexivity |]. intros _. by eexists.
    + intros [|e1 [|e2 before]] slot later Hev; cbn in Hev;
        try discriminate.
      injection Hev as <- <- _. split; [reflexivity |].
      split; [reflexivity |]. by eexists.
Qed.

(** C9, as the code has it. Off the fast path, when the front end's parse
    of the source fails, or the parse succeeds and the front end's link
    fails, [process] returns false, the outputs are as they were and
    nothing was stored. The one line logged is the info log of the shader
    as the failing step left it: after a failed parse that of the parsed
    shader, after a failed link still that of the shader, not that of the
    program. *)
Theorem parse_or_link_failure_returns_false
    (self : GLSLPostProcessor) (inputShader : string) (config : Config)
    (out : Outputs) :
  let shLang := shLangOf config in
  let version :=
    GLSLTools_glslangVersionFromShaderModel (shaderModel config) in
  let msg := processMessages config in
  let source :=
    GLSLTools_prepareShaderParser (targetApi config) (targetLanguage config)
      (TShader_setStrings (TShader_new shLang) inputShader) shLang version in
  let parse := TShader_parse source version msg in
  let tShader :=
    if bool_decide (shaderType config = FRAGMENT)
       && bool_decide (domain config = SURFACE)
    then GLSLTools_textureLodBias parse.2
    else parse.2 in
  let link :=
    TProgram_link (TProgram_addShader TProgram_new tShader) tShader msg in
  targetLanguage config ≠ GLSL →
  parse.1 = false ∨ link.1.1 = false →
  process self inputShader config out
  = Returned false out
      (if parse.1
       then [Parsed true; Linked false; Log_e (TShader_getInfoLog link.2)]
       else [Parsed false; Log_e (TShader_getInfoLog parse.2)]).
Proof.
  intros shLang version msg source parse tShader link Hlang Hfail.
  assert (Hparse : parseInput inputShader config = parse) by reflexivity.
  assert (Hlink : linkInput config parse.2 = link) by reflexivity.
  rewrite process_off_fast_path by exact Hlang. cbv zeta.
  rewrite Hparse, Hlink.
  destruct (parse.1); cbn [negb]; [| reflexivity].
  destruct Hfail as [Hfail | Hfail]; [discriminate |].
  rewrite Hfail. reflexivity.
Qed.

(** C2. At level NONE with no binary-IR slot passed, off the fast path and
    with parse and link succeeding, the NONE branch logs its error line and
    stores nothing, and [process] returns true. The binary-IR and
    cross-source slots are as they were; the only stores of the run are the
    finalizer's, which strips the whitespace of whatever the native-source
    slot held, if that slot was passed. *)
Theorem none_without_binary_slot_logs_and_returns_true
    (self : GLSLPostProcessor) (inputShader : string) (config : Config)
    (out : Outputs) :
  let internalConfig :=
    {| shLang := shLangOf config;
       langVersion :=
         GLSLTools_glslangVersionFromShaderModel (shaderModel config) |} in
  let parsed := parseInput inputShader config in
  let linked := linkInput config parsed.2 in
  let message := "GLSL post-processor invoked with optimization level NONE" in
  mOptimization self = NONE →
  outputSpirv out = None →
  targetLanguage config ≠ GLSL →
  parsed.1 = true →
  linked.1.1 = true →
  noOptimization self linked.1.2 config internalConfig out
  = Returned tt out [Log_e message]
  ∧ process self inputShader config out
    = Returned true
        (mkOutputs (removeWhitespace <$> outputGlsl out) None (outputMsl out))
        ([Parsed true; Linked true; Log_e message]
           ++ match outputGlsl out with
              | Some glsl =>
                  Stored NativeSource
                    :: if mPrintShaders self
                       then [Log_i (removeWhitespace glsl)] else []
              | None => []
              end).
Proof.
  intros internalConfig parsed linked message Hnone Hspirv Hlang Hparse Hlink.
  assert (Hbranch :
    noOptimization self linked.1.2 config internalConfig out
    = Returned tt out [Log_e message]).
  { unfold noOptimization. destruct out as [g s m]. cbn in Hspirv. subst s.
    reflexivity. }
  split; [exact Hbranch |].
  rewrite process_off_fast_path by exact Hlang. cbv zeta.
  fold parsed. fold linked. fold internalConfig.
  rewrite Hparse, Hlink. cbn [negb].
  unfold optimizationSwitch. rewrite Hnone.
  rewrite bind_unfold, Hbranch.
  unfold finalizeGlsl. rewrite Hnone.
  destruct out as [[g|] s m]; cbn in Hspirv; subst s;
    destruct (mPrintShaders self); reflexivity.
Qed.

(** The message consumer only logs. *)
Lemma optimizerMessageConsumer_log (messages : list SpvMessage) out :
  ∃ consumerLog,
    for_each optimizerMessageConsumer messages out
    = Returned tt out consumerLog
    ∧ Forall (λ e, ∃ text, e = Log_e text) consumerLog.
Proof.
  induction messages as [|m messages IH].
  - exists []. split; [reflexivity | constructor].
  - destruct IH as (evs & Hrun & Hlog).
    cbn [for_each]. rewrite bind_unfold.
    unfold optimizerMessageConsumer at 1.
    destruct (negb (filterSpvOptimizerMessage (msg_level m))).
    + exists evs. cbn. rewrite Hrun. by split.
    + eexists (_ :: evs). cbn. rewrite Hrun. split; [reflexivity |].
      constructor; [by eexists | exact Hlog].
Qed.

Lemma optimizeSpirv_run optimizer spirv out :
  ∃ consumerLog,
    Forall (λ e, ∃ text, e = Log_e text) consumerLog
    ∧ optimizeSpirv optimizer spirv out
      = let ran := Optimizer_Run optimizer spirv in
        Returned
          (if ran.1.1 then spirvbin_remap_DCE_ALL ran.1.2 else ran.1.2)
          out
          (consumerLog
             ++ OptimizerRan ran.1.1
             :: (if ran.1.1 then [DeadObjectsSwept]
                 else [Log_e "SPIR-V optimizer pass failed"])).
Proof.
  unfold optimizeSpirv.
  destruct (Optimizer_Run optimizer spirv) as [[ok spirv'] messages].
  destruct (optimizerMessageConsumer_log messages out) as (evs & Hrun & Hlog).
  exists evs. split; [exact Hlog |].
  rewrite bind_unfold, Hrun. cbn [fst snd].
  destruct ok; reflexivity.
Qed.

Lemma spirvToToMsl_run config spirv mslCompiler out :
  is_Some (outputMsl out) →
  remapResources config (newCompilerMSL config spirv) = inr mslCompiler →
  spirvToToMsl (Some spirv) config out
  = Returned tt
      (mkOutputs (outputGlsl out) (outputSpirv out)
         (Some (removeWhitespace (CompilerMSL_compile mslCompiler))))
      [Stored CrossSource; Stored CrossSource].
Proof.
  intros [m0 Hm] Hremap. unfold spirvToToMsl.
  rewrite Hremap. destruct out as [g s m]. cbn in Hm. subst m. reflexivity.
Qed.

Lemma bind_requested {B} slot (k : bool → M B) out :
  (requested slot ≫= k) out
  = k match slot with
      | NativeSource => non_null (outputGlsl out)
      | BinaryIR => non_null (outputSpirv out)
      | CrossSource => non_null (outputMsl out)
      end out.
Proof. rewrite bind_unfold. unfold requested. apply after_nil. Qed.

Lemma bind_ret {A B} (a : A) (k : A → M B) out : (mret a ≫= k) out = k a out.
Proof. rewrite bind_unfold. apply after_nil. Qed.

Lemma bind_assoc {A B C} (m : M A) (f : A → M B) (g : B → M C) out :
  ((m ≫= f) ≫= g) out = (m ≫= λ a, f a ≫= g) out.
Proof.
  rewrite !bind_unfold. destruct (m out) as [a out' evs|]; [| reflexivity].
  rewrite bind_unfold.
  destruct (f a out') as [b out'' evs'|]; cbn; [| reflexivity].
  by rewrite after_after.
Qed.

Lemma bind_load_spirv {B} (k : SpirvBlob → M B) g b m :
  (load_spirv ≫= k) (mkOutputs g (Some b) m) = k b (mkOutputs g (Some b) m).
Proof. rewrite bind_unfold. apply after_nil. Qed.

Lemma bind_store_spirv {B} b' (k : unit → M B) g b m :
  (store_spirv b' ≫= k) (mkOutputs g (Some b) m)
  = after [Stored BinaryIR] (k tt (mkOutputs g (Some b') m)).
Proof. reflexivity. Qed.

(** The cross-translation step of the NONE and PREPROCESSOR paths, when it
    is not requested or its remap completes: it returns, touches only the
    cross-source slot and only stores. *)
Lemma crossTranslation_of_slot {B} config out (k : unit → M B) :
  outputMsl out = None ∨ crossTranslates config (outputSpirv out) →
  ∃ msl crossEvents,
    Forall (λ e, e = Stored CrossSource) crossEvents
    ∧ (requested CrossSource
         ≫= λ mslOutput,
              when mslOutput
                (spirv ← spirvOutput_ptr; spirvToToMsl spirv config) ≫= k) out
      = after crossEvents
          (k tt (mkOutputs (outputGlsl out) (outputSpirv out) msl)).
Proof.
  intros Hmsl. rewrite bind_requested.
  destruct out as [g s [m0|]];
    cbn [outputMsl outputGlsl outputSpirv non_null when] in *.
  - destruct Hmsl as [[=] | (blob & c & -> & Hremap)].
    exists (Some (removeWhitespace (CompilerMSL_compile c))),
      [Stored CrossSource; Stored CrossSource].
    split; [by repeat constructor |].
    rewrite bind_assoc. rewrite (bind_unfold spirvOutput_ptr).
    unfold spirvOutput_ptr at 1. cbn [outputSpirv]. rewrite after_nil.
    rewrite bind_unfold.
    rewrite (spirvToToMsl_run config blob c) by (cbn; eauto). reflexivity.
  - exists None, []. split; [constructor |].
    rewrite bind_ret, after_nil. reflexivity.
Qed.

(** The same step in [fullOptimization], on the local module. *)
Lemma crossTranslation_of_local {B} config spirv out (k : unit → M B) :
  outputMsl out = None ∨ crossTranslates config (Some spirv) →
  ∃ msl crossEvents,
    Forall (λ e, e = Stored CrossSource) crossEvents
    ∧ (requested CrossSource
         ≫= λ mslOutput,
              when mslOutput (spirvToToMsl (Some spirv) config) ≫= k) out
      = after crossEvents
          (k tt (mkOutputs (outputGlsl out) (outputSpirv out) msl)).
Proof.
  intros Hmsl. rewrite bind_requested.
  destruct out as [g s [m0|]];
    cbn [outputMsl outputGlsl outputSpirv non_null when] in *.
  - destruct Hmsl as [[=] | (blob & c & [= <-] & Hremap)].
    exists (Some (removeWhitespace (CompilerMSL_compile c))),
      [Stored CrossSource; Stored CrossSource].
    split; [by repeat constructor |].
    rewrite bind_unfold.
    rewrite (spirvToToMsl_run config spirv c) by (cbn; eauto). reflexivity.
  - exists None, []. split; [constructor |].
    rewrite bind_ret, after_nil. reflexivity.
Qed.

(** The preprocess-only path, when its assertion holds and its
    cross-translation step completes: it returns whatever the preprocessor
    and the second parse and link report. *)
Lemma preprocessOptimization_run (self : GLSLPostProcessor)
    (tShader : TShader) (config : Config) (internalConfig : InternalConfig)
    (out : Outputs) :
  let pre := preprocessInput config tShader in
  let re := reparse config internalConfig pre.1.2 in
  let options := {| generateDebugInfo := mGenerateDebugInfo self |} in
  let spirvAfter :=
    (λ spirv,
       if re.1.1.1 && re.1.1.2
       then GlslangToSpv
              (TProgram_getIntermediate re.1.2 (shLang internalConfig))
              spirv options
       else spirv) <$> outputSpirv out in
  NDEBUG = true
    ∨ non_null (outputSpirv out) = bool_decide (targetApi config ≠ OPENGL) →
  outputMsl out = None ∨ crossTranslates config spirvAfter →
  ∃ msl crossEvents,
    Forall (λ e, e = Stored CrossSource) crossEvents ∧
    preprocessOptimization self tShader config internalConfig out
    = Returned tt
        (mkOutputs ((λ _, pre.1.2) <$> outputGlsl out) spirvAfter msl)
        ([Preprocessed pre.1.1]
           ++ (if pre.1.1 then [] else [Log_e (TShader_getInfoLog pre.2)])
           ++ (if non_null (outputSpirv out) then
                 [Parsed re.1.1.1; Linked re.1.1.2]
                   ++ (if re.1.1.1 && re.1.1.2 then [Stored BinaryIR]
                       else [Log_e (TShader_getInfoLog re.2)])
               else [])
           ++ crossEvents
           ++ (if non_null (outputGlsl out)
               then [Stored NativeSource] else [])).
Proof.
  intros pre re options spirvAfter Hassert Hmsl.
  set (out1 := mkOutputs (outputGlsl out) spirvAfter (outputMsl out)).
  destruct (crossTranslation_of_slot config out1
              (λ _, glslOutput ← requested NativeSource;
                    when glslOutput (store_glsl pre.1.2)) Hmsl)
    as (msl & crossEvents & Hforall & Hcross).
  exists msl, crossEvents. split; [exact Hforall |].
  unfold preprocessOptimization.
  rewrite bind_requested.
  assert (Hinv : assert_invariant
            (Bool.eqb (non_null (outputSpirv out))
               (bool_decide (targetApi config ≠ OPENGL))) out
          = Returned tt out []).
  { unfold assert_invariant. destruct Hassert as [-> | ->]; [reflexivity |].
    by rewrite eqb_reflx, orb_true_r. }
  rewrite bind_unfold, Hinv, after_nil. clear Hinv Hassert.
  subst spirvAfter out1 re pre options.
  destruct (preprocessInput config tShader) as [[ok glsl] tShader'].
  cbn [fst snd] in *.
  rewrite bind_emit.
  destruct (reparse config internalConfig glsl)
    as [[[ok0 linkOk] program] spirvShader].
  cbn [fst snd] in *.
  destruct out as [g s m]. cbn [outputGlsl outputSpirv outputMsl] in *.
  destruct ok, s as [spirv0|], ok0, linkOk;
    cbn [negb when non_null orb andb fmap option_fmap option_map] in *;
    unfold slog_e;
    repeat first
      [ rewrite bind_ret | rewrite bind_emit | rewrite bind_assoc
      | rewrite bind_load_spirv | rewrite bind_store_spirv ];
    rewrite Hcross; destruct g; reflexivity.
Qed.

(** The full-optimization path, when its cross-translation step
    completes. *)
Lemma fullOptimization_run (self : GLSLPostProcessor) (tShader : TShader)
    (config : Config) (internalConfig : InternalConfig) (out : Outputs) :
  let options := {| generateDebugInfo := mGenerateDebugInfo self |} in
  let lowered := GlslangToSpv (TShader_getIntermediate tShader) [] options in
  let ran :=
    Optimizer_Run (createOptimizer (mOptimization self) config) lowered in
  let spirv :=
    if ran.1.1 then spirvbin_remap_DCE_ALL ran.1.2 else ran.1.2 in
  outputMsl out = None ∨ crossTranslates config (Some spirv) →
  ∃ consumerLog msl crossEvents,
    Forall (λ e, ∃ text, e = Log_e text) consumerLog
    ∧ Forall (λ e, e = Stored CrossSource) crossEvents
    ∧ fullOptimization self tShader config internalConfig out
      = Returned tt
          (mkOutputs
             ((λ _, CompilerGLSL_compile (newCompilerGLSL config tShader spirv))
                <$> outputGlsl out)
             ((λ _, spirv) <$> outputSpirv out)
             msl)
          (consumerLog
             ++ [OptimizerRan ran.1.1]
             ++ (if ran.1.1 then [DeadObjectsSwept]
                 else [Log_e "SPIR-V optimizer pass failed"])
             ++ (if non_null (outputSpirv out) then [Stored BinaryIR] else [])
             ++ crossEvents
             ++ (if non_null (outputGlsl out)
                 then [Stored NativeSource] else [])).
Proof.
  intros options lowered ran spirv Hmsl.
  destruct (optimizeSpirv_run
              (createOptimizer (mOptimization self) config) lowered out)
    as (consumerLog & Hlog & Hrun).
  cbv zeta in Hrun. fold ran in Hrun. fold spirv in Hrun.
  set (out1 := mkOutputs (outputGlsl out) ((λ _, spirv) <$> outputSpirv out)
                 (outputMsl out)).
  destruct (crossTranslation_of_local config spirv out1
              (λ _, glslOutput ← requested NativeSource;
                    when glslOutput
                      (store_glsl
                         (CompilerGLSL_compile
                            (newCompilerGLSL config tShader spirv)))) Hmsl)
    as (msl & crossEvents & Hforall & Hcross).
  exists consumerLog, msl, crossEvents.
  split; [exact Hlog |]. split; [exact Hforall |].
  unfold fullOptimization. cbv zeta.
  fold options. fold lowered.
  rewrite bind_unfold, Hrun. clear Hrun.
  rewrite bind_requested. subst out1.
  destruct out as [g [s|] m];
    cbn [outputGlsl outputSpirv outputMsl non_null when fmap option_fmap
         option_map] in *;
    repeat first [ rewrite bind_ret | rewrite bind_store_spirv ];
    rewrite Hcross, bind_requested; destruct g, (ran.1.1);
    cbn [outputGlsl non_null when]; unfold mret, M_ret; cbn;
    rewrite <- ?(assoc_L (++)); reflexivity.
Qed.

(** The finalizer: whitespace is stripped from whatever the native-source
    slot holds, struct fields are renamed unless the level is NONE, and the
    result is echoed when shaders are printed. *)
Lemma finalizeGlsl_run (self : GLSLPostProcessor) (out : Outputs) :
  let final glsl :=
    if bool_decide (mOptimization self ≠ NONE)
    then renameStructFields (removeWhitespace glsl)
    else removeWhitespace glsl in
  finalizeGlsl self out
  = Returned tt
      (mkOutputs (final <$> outputGlsl out) (outputSpirv out) (outputMsl out))
      match outputGlsl out with
      | Some glsl =>
          [Stored NativeSource]
            ++ (if bool_decide (mOptimization self ≠ NONE)
                then [Stored NativeSource] else [])
            ++ (if mPrintShaders self then [Log_i (final glsl)] else [])
      | None => []
      end.
Proof.
  unfold finalizeGlsl.
  destruct out as [[g|] s m], (bool_decide (mOptimization self ≠ NONE)),
    (mPrintShaders self); reflexivity.
Qed.

(** C10, as the code has it. On the preprocess-only path, off the fast
    path and after the source parsed and linked, with the path's assertion
    holding and its cross-translation step not requested or completing on
    the module the binary-IR slot then holds, [process] returns true
    whatever the preprocessor and the parse and link of the preprocessed
    text report. A failure of either is only logged.
    [preprocessOptimization] assigns the preprocessed text to the
    native-source slot, which the finalizer then minifies; the binary-IR
    slot is stored to only when the second parse and link both succeed, and
    is left as it was otherwise. *)
Theorem preprocess_path_failures_only_logged
    (self : GLSLPostProcessor) (inputShader : string) (config : Config)
    (out : Outputs) :
  let internalConfig :=
    {| shLang := shLangOf config;
       langVersion :=
         GLSLTools_glslangVersionFromShaderModel (shaderModel config) |} in
  let parsed := parseInput inputShader config in
  let linked := linkInput config parsed.2 in
  let pre := preprocessInput config linked.2 in
  let glsl := pre.1.2 in
  let re := reparse config internalConfig glsl in
  let options := {| generateDebugInfo := mGenerateDebugInfo self |} in
  let spirvAfter :=
    (λ spirv,
       if re.1.1.1 && re.1.1.2
       then GlslangToSpv
              (TProgram_getIntermediate re.1.2 (shLang internalConfig))
              spirv options
       else spirv) <$> outputSpirv out in
  mOptimization self = PREPROCESSOR →
  targetLanguage config ≠ GLSL →
  parsed.1 = true →
  linked.1.1 = true →
  NDEBUG = true
    ∨ non_null (outputSpirv out) = bool_decide (targetApi config ≠ OPENGL) →
  outputMsl out = None ∨ crossTranslates config spirvAfter →
  ∃ msl crossEvents,
    Forall (λ e, e = Stored CrossSource) crossEvents
    ∧ preprocessOptimization self linked.2 config internalConfig out
      = Returned tt
          (mkOutputs ((λ _, glsl) <$> outputGlsl out) spirvAfter msl)
          ([Preprocessed pre.1.1]
             ++ (if pre.1.1 then [] else [Log_e (TShader_getInfoLog pre.2)])
             ++ (if non_null (outputSpirv out) then
                   [Parsed re.1.1.1; Linked re.1.1.2]
                     ++ (if re.1.1.1 && re.1.1.2 then [Stored BinaryIR]
                         else [Log_e (TShader_getInfoLog re.2)])
                 else [])
             ++ crossEvents
             ++ (if non_null (outputGlsl out)
                 then [Stored NativeSource] else []))
    ∧ process self inputShader config out
      = Returned true
          (mkOutputs
             ((λ _, renameStructFields (removeWhitespace glsl))
                <$> outputGlsl out)
             spirvAfter msl)
          ([Parsed true; Linked true; Preprocessed pre.1.1]
             ++ (if pre.1.1 then [] else [Log_e (TShader_getInfoLog pre.2)])
             ++ (if non_null (outputSpirv out) then
                   [Parsed re.1.1.1; Linked re.1.1.2]
                     ++ (if re.1.1.1 && re.1.1.2 then [Stored BinaryIR]
                         else [Log_e (TShader_getInfoLog re.2)])
                 else [])
             ++ crossEvents
             ++ (if non_null (outputGlsl out) then
                   [Stored NativeSource; Stored NativeSource;
                    Stored NativeSource]
                     ++ (if mPrintShaders self
                         then [Log_i (renameStructFields
                                        (removeWhitespace glsl))]
                         else [])
                 else [])).
Proof.
  intros internalConfig parsed linked pre glsl re options spirvAfter
    Hlevel Hlang Hparse Hlink Hassert Hmsl.
  destruct (preprocessOptimization_run self linked.2 config internalConfig out
              Hassert Hmsl)
    as (msl & crossEvents & Hforall & Hrun).
  cbv zeta in Hrun. fold pre in Hrun. fold glsl in Hrun. fold re in Hrun.
  fold options in Hrun. fold spirvAfter in Hrun.
  exists msl, crossEvents. split; [exact Hforall |]. split; [exact Hrun |].
  rewrite process_off_fast_path by exact Hlang. cbv zeta.
  fold parsed. fold linked. fold internalConfig.
  rewrite Hparse, Hlink. cbn [negb].
  unfold optimizationSwitch. rewrite Hlevel.
  rewrite bind_unfold, Hrun, bind_unfold, finalizeGlsl_run.
  rewrite Hlevel. cbn [outputGlsl outputSpirv outputMsl].
  destruct (outputGlsl out) as [g|], (mPrintShaders self); cbn;
    rewrite <- ?app_assoc; cbn; rewrite ?app_nil_r; reflexivity.
Qed.

(** C4, as the code has it. [optimizeSpirv] always returns and leaves the
    outputs alone. When the pass sequence fails it logs the failure and the
    module is what the optimizer left, with no sweep; the sweep of dead
    module-level objects is performed only after a pass sequence that
    succeeds. After a failure at level SIZE or PERFORMANCE the pipeline goes
    on: [process] returns true with the outputs produced from the unswept
    module (when the cross-translation step is not requested or
    completes). *)
Theorem dead_object_sweep_only_after_successful_run
    (self : GLSLPostProcessor) (inputShader : string) (config : Config)
    (out : Outputs) (optimizer : Optimizer) (spirv : SpirvBlob) :
  (∃ consumerLog,
     Forall (λ e, ∃ text, e = Log_e text) consumerLog
     ∧ optimizeSpirv optimizer spirv out
       = let ran := Optimizer_Run optimizer spirv in
         Returned
           (if ran.1.1 then spirvbin_remap_DCE_ALL ran.1.2 else ran.1.2)
           out
           (consumerLog
              ++ OptimizerRan ran.1.1
              :: (if ran.1.1 then [DeadObjectsSwept]
                  else [Log_e "SPIR-V optimizer pass failed"])))
  ∧ (let parsed := parseInput inputShader config in
     let linked := linkInput config parsed.2 in
     let options := {| generateDebugInfo := mGenerateDebugInfo self |} in
     let lowered :=
       GlslangToSpv (TShader_getIntermediate linked.2) [] options in
     let ran :=
       Optimizer_Run (createOptimizer (mOptimization self) config) lowered in
     let glsl :=
       renameStructFields
         (removeWhitespace
            (CompilerGLSL_compile
               (newCompilerGLSL config linked.2 ran.1.2))) in
     mOptimization self = SIZE ∨ mOptimization self = PERFORMANCE →
     targetLanguage config ≠ GLSL →
     parsed.1 = true →
     linked.1.1 = true →
     ran.1.1 = false →
     outputMsl out = None ∨ crossTranslates config (Some ran.1.2) →
     ∃ consumerLog msl crossEvents,
       Forall (λ e, ∃ text, e = Log_e text) consumerLog
       ∧ Forall (λ e, e = Stored CrossSource) crossEvents
       ∧ process self inputShader config out
         = Returned true
             (mkOutputs ((λ _, glsl) <$> outputGlsl out)
                ((λ _, ran.1.2) <$> outputSpirv out) msl)
             ([Parsed true; Linked true]
                ++ consumerLog
                ++ [OptimizerRan false; Log_e "SPIR-V optimizer pass failed"]
                ++ (if non_null (outputSpirv out)
                    then [Stored BinaryIR] else [])
                ++ crossEvents
                ++ (if non_null (outputGlsl out) then
                      [Stored NativeSource; Stored NativeSource;
                       Stored NativeSource]
                        ++ (if mPrintShaders self then [Log_i glsl] else [])
                    else []))).
Proof.
  split; [apply optimizeSpirv_run |].
  intros parsed linked options lowered ran glsl
    Hlevel Hlang Hparse Hlink Hfail Hmsl.
  set (internalConfig :=
         {| shLang := shLangOf config;
            langVersion :=
              GLSLTools_glslangVersionFromShaderModel (shaderModel config) |}).
  pose proof (fullOptimization_run self linked.2 config internalConfig out)
    as Hrun.
  cbv zeta in Hrun. fold options in Hrun. fold lowered in Hrun.
  fold ran in Hrun. rewrite Hfail in Hrun.
  destruct (Hrun Hmsl) as (consumerLog & msl & crossEvents & Hlog & Hforall
                           & Hfull).
  exists consumerLog, msl, crossEvents.
  split; [exact Hlog |]. split; [exact Hforall |].
  rewrite process_off_fast_path by exact Hlang. cbv zeta.
  fold parsed. fold linked. fold internalConfig.
  rewrite Hparse, Hlink. cbn [negb].
  assert (Hswitch :
    optimizationSwitch self linked.1.2 linked.2 config internalConfig
    = fullOptimization self linked.2 config internalConfig).
  { unfold optimizationSwitch. by destruct Hlevel as [-> | ->]. }
  rewrite Hswitch, bind_unfold, Hfull, bind_unfold, finalizeGlsl_run.
  assert (Hnot : bool_decide (mOptimization self ≠ NONE) = true).
  { apply bool_decide_eq_true_2. by destruct Hlevel as [-> | ->]. }
  rewrite Hnot. cbn [outputGlsl outputSpirv outputMsl]. subst glsl.
  destruct (outputGlsl out) as [g|], (mPrintShaders self); cbn;
    repeat (rewrite <- app_assoc; cbn); rewrite ?app_nil_r; reflexivity.
Qed.

End Driver.

(** ** Concrete runs on the scripted toolkit *)

(** C4, as stated, fails on a run whose optimizer fails: at level
    PERFORMANCE with a failing pass sequence, [process] logs the failure and
    returns true, and the dead-object sweep is not among the events of the
    run. *)
Lemma sweep_skipped_when_optimizer_fails :
  let toolkit := Scripted.toolkit Scripted.failingOptimizer in
  let run :=
    process (mkGLSLPostProcessor PERFORMANCE false false) "void main(){}"
      (Scripted.request VULKAN SPIRV []) Scripted.allSlots in
  events run
  = [Parsed true; Linked true; OptimizerRan false;
     Log_e "SPIR-V optimizer pass failed"; Stored BinaryIR;
     Stored CrossSource; Stored CrossSource; Stored NativeSource;
     Stored NativeSource; Stored NativeSource]
  ∧ OptimizerRan false ∈ events run
  ∧ DeadObjectsSwept ∉ events run.
Proof.
  cbv zeta.
  assert (Hev :
    events
      (@process (Scripted.toolkit Scripted.failingOptimizer)
         (mkGLSLPostProcessor PERFORMANCE false false) "void main(){}"
         (Scripted.request VULKAN SPIRV []) Scripted.allSlots)
    = [Parsed true; Linked true; OptimizerRan false;
       Log_e "SPIR-V optimizer pass failed"; Stored BinaryIR;
       Stored CrossSource; Stored CrossSource; Stored NativeSource;
       Stored NativeSource; Stored NativeSource])
    by (vm_compute; reflexivity).
  rewrite Hev. split; [reflexivity |]. split; compute_done.
Qed.

(** A failing optimizer run at level PERFORMANCE: the pipeline goes on and
    [process] returns true with the unswept module in the binary-IR slot. *)
Lemma sweep_only_after_success_witness :
  let toolkit := Scripted.toolkit Scripted.failingOptimizer in
  ∃ consumerLog msl crossEvents,
    process (mkGLSLPostProcessor PERFORMANCE false false) "void main(){}"
      (Scripted.request VULKAN SPIRV []) Scripted.allSlots
    = Returned true (mkOutputs (Some "glsl") (Some [119734787]) msl)
        ([Parsed true; Linked true]
           ++ consumerLog
           ++ [OptimizerRan false; Log_e "SPIR-V optimizer pass failed"]
           ++ [Stored BinaryIR]
           ++ crossEvents
           ++ [Stored NativeSource; Stored NativeSource;
               Stored NativeSource]).
Proof.
  cbv zeta.
  destruct (proj2 (@dead_object_sweep_only_after_successful_run
              (Scripted.toolkit Scripted.failingOptimizer)
              (mkGLSLPostProcessor PERFORMANCE false false) "void main(){}"
              (Scripted.request VULKAN SPIRV []) Scripted.allSlots
              (mkOptimizer []) []))
    as (consumerLog & msl & crossEvents & _ & _ & Hrun).
  - right. reflexivity.
  - discriminate.
  - reflexivity.
  - reflexivity.
  - reflexivity.
  - right. eexists _, _. split; reflexivity.
  - exists consumerLog, msl, crossEvents. exact Hrun.
Defined.

(** C1, as stated, fails on a GLSL request that passes the binary-IR slot:
    such a request is not one with no binary output requested, yet
    [process] stores the input text without a parse or a link before. *)
Lemma fast_path_taken_with_binary_slot_passed :
  let toolkit := Scripted.toolkit Scripted.plain in
  let out := mkOutputs (Some "") (Some []) None in
  let run :=
    process (mkGLSLPostProcessor PERFORMANCE false false) "void main(){}"
      (Scripted.request OPENGL GLSL []) out in
  is_Some (outputSpirv out)
  ∧ run
    = Returned true (mkOutputs (Some "void main(){}") (Some []) None)
        [Stored NativeSource]
  ∧ ¬ (∀ before slot later,
         events run = before ++ Stored slot :: later →
         Parsed true ∈ before ∧ Linked true ∈ before).
Proof.
  cbv zeta. split; [by eexists |]. split; [reflexivity |].
  intros Hfirst.
  destruct (Hfirst [] NativeSource [] eq_refl) as [Hparsed _].
  by apply elem_of_nil in Hparsed.
Qed.

(** The fast path on a GLSL request, and the order of events on a SPIR-V
    request. *)
Lemma fast_path_witness :
  let toolkit := Scripted.toolkit Scripted.plain in
  process (mkGLSLPostProcessor PERFORMANCE true false) "void main(){}"
    (Scripted.request OPENGL GLSL []) Scripted.allSlots
  = Returned true (mkOutputs (Some "void main(){}") (Some []) (Some ""))
      [Stored NativeSource; Log_i "void main(){}"]
  ∧ ∀ before slot later,
      events
        (process (mkGLSLPostProcessor PERFORMANCE true false) "void main(){}"
           (Scripted.request METAL SPIRV []) Scripted.allSlots)
      = before ++ Stored slot :: later →
      ∃ between, before = Parsed true :: Linked true :: between.
Proof.
  cbv zeta. split.
  - apply (proj1 (@fast_path_identity_else_parse_and_link_first
                    (Scripted.toolkit Scripted.plain)
                    (mkGLSLPostProcessor PERFORMANCE true false)
                    "void main(){}" (Scripted.request OPENGL GLSL [])
                    Scripted.allSlots)).
    + reflexivity.
    + eexists. reflexivity.
  - intros before slot later Hev.
    apply (proj2 (@fast_path_identity_else_parse_and_link_first
                    (Scripted.toolkit Scripted.plain)
                    (mkGLSLPostProcessor PERFORMANCE true false)
                    "void main(){}" (Scripted.request METAL SPIRV [])
                    Scripted.allSlots)
             ltac:(discriminate)) in Hev.
    exact (proj2 (proj2 Hev)).
Defined.

(** Level NONE on a request that passes only the native-source slot. *)
Lemma none_without_binary_slot_witness :
  let toolkit := Scripted.toolkit Scripted.plain in
  process (mkGLSLPostProcessor NONE true false) "void main(){}"
    (Scripted.request VULKAN SPIRV []) (mkOutputs (Some " x ") None None)
  = Returned true (mkOutputs (Some " x ") None None)
      [Parsed true; Linked true;
       Log_e "GLSL post-processor invoked with optimization level NONE";
       Stored NativeSource; Log_i " x "].
Proof.
  cbv zeta.
  apply (proj2 (@none_without_binary_slot_logs_and_returns_true
                  (Scripted.toolkit Scripted.plain)
                  (mkGLSLPostProcessor NONE true false) "void main(){}"
                  (Scripted.request VULKAN SPIRV [])
                  (mkOutputs (Some " x ") None None)
                  eq_refl eq_refl ltac:(discriminate) eq_refl eq_refl)).
Defined.

(** C9, as stated, fails on a source that parses and does not link: the
    shader's info log is empty after the parse and the link does not write
    to it, so the one line [process] logs is empty. *)
Lemma link_failure_logs_empty_text :
  let toolkit := Scripted.toolkit Scripted.unlinkable in
  let run :=
    process (mkGLSLPostProcessor SIZE true false) "void main(){}"
      (Scripted.request VULKAN SPIRV []) Scripted.allSlots in
  run = Returned false Scripted.allSlots [Parsed true; Linked false; Log_e ""]
  ∧ ¬ (∃ text, Log_e text ∈ events run ∧ text ≠ "").
Proof.
  cbv zeta.
  assert (Hrun :
    @process (Scripted.toolkit Scripted.unlinkable)
      (mkGLSLPostProcessor SIZE true false) "void main(){}"
      (Scripted.request VULKAN SPIRV []) Scripted.allSlots
    = Returned false Scripted.allSlots
        [Parsed true; Linked false; Log_e ""])
    by reflexivity.
  rewrite Hrun. split; [reflexivity |].
  intros (text & Hin & Hne). cbn [events] in Hin.
  in_cases Hin. by injection Hin as ->.
Qed.

(** A source the front end rejects, and a source that parses and does not
    link. *)
Lemma parse_failure_witness :
  (let toolkit := Scripted.toolkit Scripted.rejecting in
   process (mkGLSLPostProcessor SIZE true false) "void main(){"
     (Scripted.request VULKAN SPIRV []) Scripted.allSlots
   = Returned false Scripted.allSlots
       [Parsed false; Log_e "ERROR: parse failed"])
  ∧ (let toolkit := Scripted.toolkit Scripted.unlinkable in
     process (mkGLSLPostProcessor SIZE true false) "void main(){}"
       (Scripted.request VULKAN SPIRV []) Scripted.allSlots
     = Returned false Scripted.allSlots
         [Parsed true; Linked false; Log_e ""]).
Proof.
  cbv zeta. split.
  - apply (@parse_or_link_failure_returns_false
             (Scripted.toolkit Scripted.rejecting)
             (mkGLSLPostProcessor SIZE true false) "void main(){"
             (Scripted.request VULKAN SPIRV []) Scripted.allSlots).
    + discriminate.
    + left. reflexivity.
  - apply (@parse_or_link_failure_returns_false
             (Scripted.toolkit Scripted.unlinkable)
             (mkGLSLPostProcessor SIZE true false) "void main(){}"
             (Scripted.request VULKAN SPIRV []) Scripted.allSlots).
    + discriminate.
    + right. reflexivity.
Defined.

(** C10, as stated, fails on a request that passes the cross-source slot
    when the second parse fails: the binary-IR slot is not stored to, the
    cross-translation runs on the module the slot held before, here one
    with a sampled image whose name the material does not register, and the
    lookup fault ends [process] before the native-source slot is assigned.
    [process] does not return. *)
Lemma preprocess_path_aborts_on_stale_module :
  let toolkit := Scripted.toolkit Scripted.brokenPreprocessor in
  let out := mkOutputs (Some "") (Some [1]) (Some "") in
  let run :=
    process (mkGLSLPostProcessor PREPROCESSOR false false) "void main(){}"
      (Scripted.request METAL SPIRV []) out in
  run
  = Aborted (OutOfRange "") out
      [Parsed true; Linked true; Preprocessed false;
       Log_e "ERROR: preprocess failed";
       Parsed false; Linked true; Log_e "ERROR: parse failed"]
  ∧ (∀ out' evs, run ≠ Returned true out' evs)
  ∧ Stored NativeSource ∉ events run.
Proof.
  cbv zeta.
  assert (Hrun :
    @process (Scripted.toolkit Scripted.brokenPreprocessor)
      (mkGLSLPostProcessor PREPROCESSOR false false) "void main(){}"
      (Scripted.request METAL SPIRV []) (mkOutputs (Some "") (Some [1]) (Some ""))
    = Aborted (OutOfRange "") (mkOutputs (Some "") (Some [1]) (Some ""))
        [Parsed true; Linked true; Preprocessed false;
         Log_e "ERROR: preprocess failed";
         Parsed false; Linked true; Log_e "ERROR: parse failed"])
    by (vm_compute; reflexivity).
  rewrite Hrun. split; [reflexivity |]. split; [discriminate |].
  cbn [events]. intros Hin. in_cases Hin.
Qed.

(** The preprocess-only path with a failing preprocessor and a failing
    second parse, all three slots passed: [process] returns true. *)
Lemma preprocess_path_witness :
  let toolkit := Scripted.toolkit Scripted.brokenPreprocessor in
  ∃ msl crossEvents,
    process (mkGLSLPostProcessor PREPROCESSOR true false) "void main(){}"
      (Scripted.request METAL SPIRV []) Scripted.allSlots
    = Returned true (mkOutputs (Some "") (Some []) msl)
        ([Parsed true; Linked true; Preprocessed false;
          Log_e "ERROR: preprocess failed"]
           ++ [Parsed false; Linked true; Log_e "ERROR: parse failed"]
           ++ crossEvents
           ++ [Stored NativeSource; Stored NativeSource; Stored NativeSource;
               Log_i ""]).
Proof.
  cbv zeta.
  destruct (@preprocess_path_failures_only_logged
              (Scripted.toolkit Scripted.brokenPreprocessor)
              (mkGLSLPostProcessor PREPROCESSOR true false) "void main(){}"
              (Scripted.request METAL SPIRV []) Scripted.allSlots)
    as (msl & crossEvents & _ & _ & Hrun).
  - reflexivity.
  - discriminate.
  - reflexivity.
  - reflexivity.
  - left. reflexivity.
  - right. eexists _, _. split; reflexivity.
  - exists msl, crossEvents. exact Hrun.
Defined.

(** A module with one sampled image named a and one uniform buffer, under
    a material that registers a: the image gets index 0 in all three slots,
    the buffer keeps its binding 100. *)
Lemma remap_witness :
  let toolkit := Scripted.toolkit Scripted.named in
  let config := Scripted.request METAL SPIRV ["a"] in
  let mslCompiler := newCompilerMSL config [1; 100] in
  ∃ mslCompiler' samplers buffers,
    remapResources config mslCompiler = inr mslCompiler'
    ∧ msl_resource_bindings mslCompiler' = samplers ++ buffers
    ∧ Forall2 (samplerBindingOf [1; 100] (msl.getBindingIndexMap config))
        [mkResource 1] samplers
    ∧ Forall2 (bufferBindingOf [1; 100]) [mkResource 100] buffers.
Proof.
  cbv zeta.
  destruct (@samplers_remapped_by_name_buffers_by_identity
              (Scripted.toolkit Scripted.named)
              (Scripted.request METAL SPIRV ["a"])
              (@newCompilerMSL (Scripted.toolkit Scripted.named)
                 (Scripted.request METAL SPIRV ["a"]) [1; 100]))
    as (_ & _ & Hok & _).
  destruct (@remapResources (Scripted.toolkit Scripted.named)
              (Scripted.request METAL SPIRV ["a"])
              (@newCompilerMSL (Scripted.toolkit Scripted.named)
                 (Scripted.request METAL SPIRV ["a"]) [1; 100]))
    as [fault|mslCompiler'] eqn:Hremap; [vm_compute in Hremap; discriminate |].
  destruct (Hok mslCompiler' eq_refl) as (samplers & buffers & Hb & Hs & Hu).
  exists mslCompiler', samplers, buffers. repeat split; assumption.
Defined.

(** * Further properties of the code *)

(** ** The pass planner, beyond the merge-return and half-precision rules *)

Section PassPlannerMore.

(** X1. The pass list depends on the level, the shader model and the
    target API only: two configurations that agree on the shader model and
    the target API get the same list at every level, whatever their stage,
    domain, variant, material or framebuffer-fetch flag. *)
Theorem pass_list_depends_on_model_and_api_only
    (optimization : Optimization) (config config' : Config) :
  shaderModel config = shaderModel config' →
  targetApi config = targetApi config' →
  createOptimizer optimization config = createOptimizer optimization config'.
Proof.
  intros Hmodel Hapi.
  unfold createOptimizer, registerSizePasses, registerPerformancePasses.
  rewrite Hmodel, Hapi. reflexivity.
Qed.

(** X2. Levels NONE and PREPROCESSOR register no pass at all, and no level
    registers the dead-struct-member elimination pass, for any
    configuration. *)
Theorem no_level_eliminates_dead_members
    (optimization : Optimization) (config : Config) :
  passes (createOptimizer NONE config) = []
  ∧ passes (createOptimizer PREPROCESSOR config) = []
  ∧ (CreateEliminateDeadMembersPass
       ∉ passes (createOptimizer optimization config)).
Proof.
  split; [reflexivity |]. split; [reflexivity |].
  destruct config as [v api lang st model dom mi fb sub].
  destruct optimization, api, model; compute_done.
Qed.

(** X3. What tells the two lists apart, for every configuration: loop
    unrolling, control-flow-graph cleanup and dead-function elimination are
    in the SIZE list and not in the PERFORMANCE list; access-chain
    combination and load-size reduction are in the PERFORMANCE list and not
    in the SIZE list; scalar replacement runs with limit 0 at SIZE and with
    the default limit at PERFORMANCE, never the other way round. *)
Theorem size_and_performance_lists_differ (config : Config) :
  let size := passes (createOptimizer SIZE config) in
  let performance := passes (createOptimizer PERFORMANCE config) in
  (CreateLoopUnrollPass true ∈ size
   ∧ CreateCFGCleanupPass ∈ size
   ∧ CreateEliminateDeadFunctionsPass ∈ size
   ∧ CreateScalarReplacementPass (Some 0) ∈ size
   ∧ (CreateCombineAccessChainsPass ∉ size)
   ∧ (CreateReduceLoadSizePass ∉ size)
   ∧ (CreateScalarReplacementPass None ∉ size))
  ∧ (CreateCombineAccessChainsPass ∈ performance
     ∧ CreateReduceLoadSizePass ∈ performance
     ∧ CreateScalarReplacementPass None ∈ performance
     ∧ (CreateLoopUnrollPass true ∉ performance)
     ∧ (CreateCFGCleanupPass ∉ performance)
     ∧ (CreateEliminateDeadFunctionsPass ∉ performance)
     ∧ (CreateScalarReplacementPass (Some 0) ∉ performance)).
Proof.
  destruct config as [v api lang st model dom mi fb sub].
  destruct api, model; cbv zeta; repeat split; compute_done.
Qed.

(** X4. How the lists end, for every configuration: the SIZE list ends
    with control-flow-graph cleanup; the PERFORMANCE list ends with
    aggressive dead-code elimination for Metal and with simplification for
    any other target. In both, exhaustive inlining comes right after the
    opening passes: third when merge-return is skipped, fourth when it is
    registered. *)
Theorem pass_lists_inline_early_and_end (config : Config) :
  let size := passes (createOptimizer SIZE config) in
  let performance := passes (createOptimizer PERFORMANCE config) in
  last size = Some CreateCFGCleanupPass
  ∧ last performance
    = Some (if bool_decide (targetApi config = METAL)
            then CreateAggressiveDCEPass else CreateSimplificationPass)
  ∧ size !! (if bool_decide (CreateMergeReturnPass ∈ size) then 3 else 2)%nat
    = Some CreateInlineExhaustivePass
  ∧ performance
      !! (if bool_decide (CreateMergeReturnPass ∈ performance)
          then 3 else 2)%nat
    = Some CreateInlineExhaustivePass.
Proof.
  destruct config as [v api lang st model dom mi fb sub].
  destruct api, model; cbv zeta; repeat split; reflexivity.
Qed.

End PassPlannerMore.

(** ** The optimizer's messages *)

Section OptimizerMessages.
Context `{External}.

(** X5. The messages of an optimizer run reach the error log in the order
    the optimizer sent them, one line per message that passes the filter
    and none for the others, without touching the outputs. Fatal, internal
    and plain errors always pass; warnings, infos and debug messages pass
    only in a build without NDEBUG. *)
Theorem optimizer_messages_logged_in_order
    (messages : list SpvMessage) (out : Outputs) :
  for_each optimizerMessageConsumer messages out
  = Returned tt out
      ((λ m, Log_e (stringifySpvOptimizerMessage (msg_level m) (msg_source m)
                      (msg_position m) (msg_message m)))
         <$> filter (λ m, filterSpvOptimizerMessage (msg_level m) = true)
               messages)
  ∧ filterSpvOptimizerMessage SPV_MSG_FATAL = true
  ∧ filterSpvOptimizerMessage SPV_MSG_INTERNAL_ERROR = true
  ∧ filterSpvOptimizerMessage SPV_MSG_ERROR = true
  ∧ filterSpvOptimizerMessage SPV_MSG_WARNING = negb NDEBUG
  ∧ filterSpvOptimizerMessage SPV_MSG_INFO = negb NDEBUG
  ∧ filterSpvOptimizerMessage SPV_MSG_DEBUG = negb NDEBUG.
Proof.
  split.
  - induction messages as [|m messages IH]; [reflexivity |].
    cbn [for_each]. rewrite bind_unfold. unfold optimizerMessageConsumer at 1.
    rewrite filter_cons.
    destruct (filterSpvOptimizerMessage (msg_level m)) eqn:Hpass;
      cbn [negb].
    + rewrite decide_True by reflexivity. cbn. rewrite IH. reflexivity.
    + rewrite decide_False by discriminate. cbn. rewrite IH. reflexivity.
  - unfold filterSpvOptimizerMessage. by destruct NDEBUG.
Qed.

(** X6. The line of a message tells its level: the lines of two messages
    of different levels differ, whatever their sources, positions and
    texts. *)
Theorem message_line_determines_level
    (level level' : spv_message_level_t) (source source' : option string)
    (position position' : spv_position_t) (message message' : option string) :
  stringifySpvOptimizerMessage level source position message
  = stringifySpvOptimizerMessage level' source' position' message' →
  level = level'.
Proof.
  unfold stringifySpvOptimizerMessage.
  destruct level, level'; intros Heq; try reflexivity; exfalso;
    cbv [String.append] in Heq; congruence.
Qed.

End OptimizerMessages.

(** Two fatal messages with the same line. *)
Lemma message_line_witness :
  SPV_MSG_FATAL = SPV_MSG_FATAL.
Proof.
  apply (message_line_determines_level
           SPV_MSG_FATAL SPV_MSG_FATAL (Some "a.spv") (Some "a.spv")
           (mkPosition 1 2 3) (mkPosition 1 2 3) None None).
  reflexivity.
Defined.

(** ** The options of the two translators *)

Section TranslatorOptions.
Context `{External}.

(** X7. The back-translation to GLSL is set up by the shader model alone,
    except for the framebuffer-fetch remaps: ES with version 300 and medium
    default precision for MOBILE, desktop GLSL 410 with high default
    precision and the shading-language-packing header line for DESKTOP.
    The 420pack extension is never enabled. Framebuffer-fetch remaps are
    set only for a MOBILE fragment shader: then one per pair of the
    subpass table, in the table's order. *)
Theorem back_translation_options
    (config : Config) (tShader : TShader) (spirv : SpirvBlob) :
  let glslCompiler := newCompilerGLSL config tShader spirv in
  let mobile := bool_decide (shaderModel config = MOBILE) in
  glsl_ir glslCompiler = spirv
  ∧ glsl_options glslCompiler
    = Some {| es := mobile;
              version := if mobile then 300 else 410;
              enable_420pack_extension := false;
              fragment_default_float_precision :=
                if mobile then Mediump else Highp;
              fragment_default_int_precision :=
                if mobile then Mediump else Highp |}
  ∧ glsl_header_lines glslCompiler
    = (if mobile then []
       else ["#extension GL_ARB_shading_language_packing : enable"])
  ∧ glsl_ext_framebuffer_fetch glslCompiler
    = (if mobile && bool_decide (TShader_getStage tShader = EShLangFragment)
       then (λ i, (i.1, i.2, true)) <$> glsl_subpassInputToColorLocation config
       else []).
Proof.
  unfold newCompilerGLSL, glslOptionsFor, glslVersionFromShaderModel.
  cbv zeta. cbn [glsl_ir glsl_options glsl_header_lines
                 glsl_ext_framebuffer_fetch es].
  destruct (shaderModel config);
    destruct (bool_decide (TShader_getStage tShader = EShLangFragment));
    repeat split; reflexivity.
Qed.

(** X8. The cross-translation to MSL targets iOS with MSL 2.0 for MOBILE,
    with or without framebuffer fetch, and macOS for DESKTOP, with MSL 2.2,
    raised to 2.3 exactly when the material uses framebuffer fetch;
    framebuffer-fetch subpasses are used exactly when the material has
    framebuffer fetch. The compiler starts from the module with the default
    common options and no binding. *)
Theorem cross_translation_options (config : Config) (spirv : SpirvBlob) :
  let mslCompiler := newCompilerMSL config spirv in
  msl_ir mslCompiler = spirv
  ∧ msl_resource_bindings mslCompiler = []
  ∧ msl_common_options mslCompiler = Some default_common_options
  ∧ msl_options mslCompiler
    = Some
        match shaderModel config with
        | MOBILE =>
            {| platform := iOS;
               msl_version := make_msl_version 2 0;
               use_framebuffer_fetch_subpasses := hasFramebufferFetch config |}
        | DESKTOP =>
            {| platform := macOS;
               msl_version :=
                 if hasFramebufferFetch config
                 then make_msl_version 2 3 else make_msl_version 2 2;
               use_framebuffer_fetch_subpasses := hasFramebufferFetch config |}
        end.
Proof.
  unfold newCompilerMSL, mslOptionsFor. cbv zeta.
  cbn [msl_ir msl_resource_bindings msl_common_options msl_options].
  destruct (shaderModel config), (hasFramebufferFetch config);
    repeat split; reflexivity.
Qed.

End TranslatorOptions.

(** ** The binding index map, for any list of names *)

Section BindingIndexMapMore.
Context `{External}.

(** Whatever names are registered, repeated or not: the keys are the
    registered names, and every index is a [uint16_t] below the number of
    registrations. *)
Lemma foldl_assignNext_keys_and_range (names : list string) :
  let map := foldl msl.assignNext (∅ : gmap string Z) names in
  (size map ≤ length names)%nat
  ∧ (∀ name, is_Some (map !! name) ↔ name ∈ names)
  ∧ ∀ name i, map !! name = Some i →
              0 ≤ i < 65536 ∧ i < Z.of_nat (length names).
Proof.
  induction names as [|name names IH] using rev_ind.
  - cbn. split; [by rewrite map_size_empty |]. split.
    + intros name. rewrite lookup_empty. split.
      * by intros [? [=]].
      * by intros ?%elem_of_nil.
    + intros name i. by rewrite lookup_empty.
  - cbv zeta in *. rewrite foldl_app. cbn [foldl].
    set (map := foldl msl.assignNext ∅ names) in *.
    destruct IH as (Hsize & Hkeys & Hrange).
    unfold msl.assignNext. rewrite length_app. cbn [length].
    assert (Hmod : 0 ≤ Z.of_nat (size map) mod 65536 < 65536)
      by (apply Z.mod_pos_bound; lia).
    assert (Hle : Z.of_nat (size map) mod 65536 ≤ Z.of_nat (size map))
      by (apply Z.mod_le; lia).
    split; [| split].
    + pose proof (map_size_insert name (Z.of_nat (size map) mod 65536) map)
        as Hins.
      destruct (map !! name); cbn in Hins; lia.
    + intros name'. rewrite lookup_insert, elem_of_app, list_elem_of_singleton.
      case_decide as Heq.
      * subst. split; [by right | by eexists].
      * rewrite Hkeys. split; [by left | intros [? | ?]; congruence].
    + intros name' i. rewrite lookup_insert. case_decide as Heq.
      * intros [= <-]. lia.
      * intros Hi. apply Hrange in Hi. lia.
Qed.

(** X9. For every configuration, with repeated names or not and however
    many: a name has an index in the binding index map exactly when the
    enumeration registers it, every index is a 16-bit value below the
    number of registrations, and the map has at most as many entries as
    there were registrations. *)
Theorem binding_map_keys_and_index_range (config : Config) :
  let map := msl.getBindingIndexMap config in
  let names := msl.registeredNames config in
  (∀ name, is_Some (map !! name) ↔ name ∈ names)
  ∧ (∀ name i, map !! name = Some i →
               0 ≤ i < 65536 ∧ i < Z.of_nat (length names))
  ∧ (size map ≤ length names)%nat.
Proof.
  cbv zeta. rewrite getBindingIndexMap_registeredNames.
  destruct (foldl_assignNext_keys_and_range (msl.registeredNames config))
    as (Hsize & Hkeys & Hrange).
  by repeat split; try apply Hkeys; try (eapply Hrange; eassumption).
Qed.

(** X10. When the registered names are pairwise distinct and at most 65536,
    the index of a name is its position in the enumeration order: the
    blocks in the order of their binding points, each with its samplers in
    declaration order, then the samplers of the material. *)
Theorem distinct_names_indexed_in_enumeration_order
    (config : Config) (j : nat) (name : string) :
  NoDup (msl.registeredNames config) →
  Z.of_nat (length (msl.registeredNames config)) ≤ 65536 →
  msl.registeredNames config !! j = Some name →
  msl.getBindingIndexMap config !! name = Some (Z.of_nat j).
Proof.
  intros Hnd Hlen Hj. rewrite getBindingIndexMap_registeredNames.
  destruct (foldl_assignNext_distinct _ Hnd Hlen) as [_ Hlook].
  apply Hlook. by exists j.
Qed.

(** X11. Where the names of the map come from. A name is registered exactly
    when it is a sampler of the material's own block and that block is
    active for the shader stage, or the domain is SURFACE and it is a
    sampler of a block that [SibGenerator::getSib] returns for a binding
    point other than PER_MATERIAL_INSTANCE and that is active for the
    stage. Nothing of a block that is inactive for the stage, and nothing
    that the generator holds for PER_MATERIAL_INSTANCE, enters the map; a
    POST_PROCESS material registers its own samplers only. *)
Theorem binding_map_sources (config : Config) (name : string) :
  is_Some (msl.getBindingIndexMap config !! name)
  ↔ (hasShaderType (getStageFlags (sib (materialInfo config)))
       (shaderType config) = true
     ∧ name ∈ uniformName <$> getSamplerInfoList (sib (materialInfo config)))
    ∨ (domain config = SURFACE
       ∧ ∃ (blockIndex : nat) (block : SamplerInterfaceBlock),
           (blockIndex < SamplerBindingPoints_count)%nat
           ∧ blockIndex ≠ PER_MATERIAL_INSTANCE
           ∧ SibGenerator_getSib blockIndex (variant config) = Some block
           ∧ hasShaderType (getStageFlags block) (shaderType config) = true
           ∧ name ∈ uniformName <$> getSamplerInfoList block).
Proof.
  destruct (binding_map_keys_and_index_range config) as (Hkeys & _).
  cbv zeta in Hkeys. rewrite Hkeys. clear Hkeys.
  unfold msl.registeredNames. rewrite elem_of_app.
  assert (Hblock : ∀ block,
            name ∈ msl.namesOfBlock config block
            ↔ hasShaderType (getStageFlags block) (shaderType config) = true
              ∧ name ∈ uniformName <$> getSamplerInfoList block).
  { intros block. unfold msl.namesOfBlock.
    destruct (hasShaderType _ _); [tauto |].
    split; [by intros ?%elem_of_nil | by intros [[=] _]]. }
  rewrite Hblock. split.
  - intros [Hsurface | Hmaterial]; [right | by left].
    destruct (domain config); [| by apply elem_of_nil in Hsurface].
    split; [reflexivity |].
    apply list_elem_of_In, in_concat in Hsurface as (names & Hnames & Hin).
    apply list_elem_of_In, list_elem_of_fmap in Hnames
      as (blockIndex & -> & Hidx).
    apply elem_of_seq in Hidx. apply list_elem_of_In in Hin.
    case_bool_decide as Hne; [| by apply elem_of_nil in Hin].
    destruct (SibGenerator_getSib blockIndex (variant config)) as [block|]
      eqn:Hsib; [| by apply elem_of_nil in Hin].
    apply Hblock in Hin as [Hactive Hin].
    exists blockIndex, block. repeat split; [lia | done..].
  - intros [Hmaterial | (Hdomain & blockIndex & block & Hlt & Hne & Hsib
                          & Hactive & Hin)]; [by right | left].
    rewrite Hdomain. apply list_elem_of_In, in_concat.
    exists (msl.namesOfBlock config block). split.
    + apply list_elem_of_In, list_elem_of_fmap. exists blockIndex. split.
      * rewrite bool_decide_eq_true_2 by done. by rewrite Hsib.
      * apply elem_of_seq. lia.
    + apply list_elem_of_In, Hblock. by split.
Qed.

End BindingIndexMapMore.

(** The third of three distinct names of a material. *)
Lemma distinct_names_order_witness :
  let toolkit := Scripted.toolkit Scripted.plain in
  msl.getBindingIndexMap (Scripted.request METAL SPIRV ["a"; "b"; "c"]) !! "c"
  = Some 2.
Proof.
  cbv zeta.
  apply (@distinct_names_indexed_in_enumeration_order
           (Scripted.toolkit Scripted.plain)
           (Scripted.request METAL SPIRV ["a"; "b"; "c"]) 2 "c").
  - compute_done.
  - compute_done.
  - reflexivity.
Defined.

(** ** The remap of the resources, beyond the three indices *)

Section BindingRemapperMore.
Context `{External}.

Lemma updateResourceBinding_shape executionModel mslCompiler r map
    mslCompiler' :
  updateResourceBinding executionModel mslCompiler r map = inr mslCompiler' →
  ∃ b, mslCompiler' = add_msl_resource_binding mslCompiler b
       ∧ stage b = executionModel.
Proof.
  unfold updateResourceBinding.
  destruct (match map with Some _ => _ | None => _ end) as [fault|index];
    [discriminate |].
  intros [= <-]. by eexists.
Qed.

Lemma updateResourceBindings_shape executionModel map
    (resources : list Resource) :
  ∀ mslCompiler mslCompiler',
    updateResourceBindings executionModel mslCompiler resources map
    = inr mslCompiler' →
    msl_ir mslCompiler' = msl_ir mslCompiler
    ∧ msl_common_options mslCompiler' = msl_common_options mslCompiler
    ∧ msl_options mslCompiler' = msl_options mslCompiler
    ∧ ∃ bs, msl_resource_bindings mslCompiler'
            = msl_resource_bindings mslCompiler ++ bs
            ∧ length bs = length resources
            ∧ Forall (λ b, stage b = executionModel) bs.
Proof.
  induction resources as [|r resources IH]; intros c c' Hrun.
  - injection Hrun as <-. repeat split. exists []. by rewrite app_nil_r.
  - cbn [updateResourceBindings] in Hrun.
    destruct (updateResourceBinding executionModel c r map) as [fault|c1]
      eqn:Hstep; [discriminate |].
    apply updateResourceBinding_shape in Hstep as (b & -> & Hstage).
    apply IH in Hrun as (Hir & Hcommon & Hoptions & bs & Hbs & Hlen & Hall).
    cbn in Hir, Hcommon, Hoptions, Hbs. repeat split; try done.
    exists (b :: bs). rewrite Hbs, <- app_assoc. repeat split.
    + cbn. by rewrite Hlen.
    + by constructor.
Qed.

(** The loop over the sampled images stops at the first image whose name
    the map lacks. *)
Lemma updateResourceBindings_first_absent executionModel
    (map : gmap string Z) (registered : list Resource) (r : Resource)
    (rest : list Resource) :
  ∀ mslCompiler,
    Forall (λ r', is_Some (map !! get_name (msl_ir mslCompiler) (id r')))
      registered →
    map !! get_name (msl_ir mslCompiler) (id r) = None →
    updateResourceBindings executionModel mslCompiler
      (registered ++ r :: rest) (Some map)
    = inl (OutOfRange (get_name (msl_ir mslCompiler) (id r))).
Proof.
  induction registered as [|r' registered IH]; intros c Hall Hnone.
  - cbn [app updateResourceBindings].
    pose proof (updateResourceBinding_sampler executionModel c r map) as Hstep.
    rewrite Hnone in Hstep. by rewrite Hstep.
  - apply Forall_cons in Hall as [[index Hr'] Hall].
    cbn [app updateResourceBindings].
    pose proof (updateResourceBinding_sampler executionModel c r' map)
      as Hstep.
    rewrite Hr' in Hstep. destruct Hstep as (b & -> & _).
    apply (IH (add_msl_resource_binding c b)); assumption.
Qed.

(** X12. When the remap fails, the fault names the first sampled image, in
    the order of the module's resource list, whose name the binding index
    map lacks: the images before it have been bound, the ones after it and
    the uniform buffers have not been looked at. *)
Theorem remap_fault_names_first_unregistered_image
    (config : Config) (mslCompiler : CompilerMSL)
    (registered : list Resource) (r : Resource) (rest : list Resource) :
  let ir := msl_ir mslCompiler in
  let map := msl.getBindingIndexMap config in
  sampled_images (get_shader_resources ir) = registered ++ r :: rest →
  Forall (λ r', is_Some (map !! get_name ir (id r'))) registered →
  map !! get_name ir (id r) = None →
  remapResources config mslCompiler = inl (OutOfRange (get_name ir (id r))).
Proof.
  intros ir map Hlist Hall Hnone. unfold remapResources.
  fold ir. rewrite Hlist. fold map.
  by rewrite (updateResourceBindings_first_absent _ map registered r rest
                mslCompiler Hall Hnone).
Qed.

(** X13. A remap that succeeds leaves the module and the options of the
    compiler as they were and keeps the bindings it already had; it adds
    exactly one binding per sampled image and per uniform buffer of the
    module, each for the execution model of the module. *)
Theorem remap_adds_one_binding_per_resource
    (config : Config) (mslCompiler mslCompiler' : CompilerMSL) :
  let resources := get_shader_resources (msl_ir mslCompiler) in
  remapResources config mslCompiler = inr mslCompiler' →
  msl_ir mslCompiler' = msl_ir mslCompiler
  ∧ msl_common_options mslCompiler' = msl_common_options mslCompiler
  ∧ msl_options mslCompiler' = msl_options mslCompiler
  ∧ ∃ added,
      msl_resource_bindings mslCompiler'
      = msl_resource_bindings mslCompiler ++ added
      ∧ length added
        = (length (sampled_images resources)
           + length (uniform_buffers resources))%nat
      ∧ Forall (λ b, stage b = get_execution_model (msl_ir mslCompiler))
          added.
Proof.
  intros resources. unfold remapResources. fold resources.
  destruct (updateResourceBindings _ mslCompiler (sampled_images resources) _)
    as [fault|c1] eqn:Hsamplers; [discriminate |].
  intros Hbuffers.
  apply updateResourceBindings_shape in Hsamplers
    as (Hir & Hcommon & Hoptions & bs & Hbs & Hlen & Hall).
  apply updateResourceBindings_shape in Hbuffers
    as (Hir' & Hcommon' & Hoptions' & bs' & Hbs' & Hlen' & Hall').
  repeat split; try congruence.
  exists (bs ++ bs'). rewrite Hbs', Hbs, <- app_assoc. repeat split.
  - rewrite length_app. lia.
  - apply Forall_app. by split.
Qed.

End BindingRemapperMore.

(** A module with the sampled images 1 (named a) and 2 (unnamed) under a
    material that registers a alone: the fault names image 2. *)
Lemma remap_first_unregistered_witness :
  let toolkit := Scripted.toolkit Scripted.named in
  let config := Scripted.request METAL SPIRV ["a"] in
  remapResources config (newCompilerMSL config [1; 2; 100])
  = inl (OutOfRange "").
Proof.
  cbv zeta.
  apply (@remap_fault_names_first_unregistered_image
           (Scripted.toolkit Scripted.named)
           (Scripted.request METAL SPIRV ["a"])
           (@newCompilerMSL (Scripted.toolkit Scripted.named)
              (Scripted.request METAL SPIRV ["a"]) [1; 2; 100])
           [mkResource 1] (mkResource 2) []).
  - reflexivity.
  - constructor; [| constructor]. eexists. vm_compute. reflexivity.
  - vm_compute. reflexivity.
Defined.

(** The remap of a module with one registered image and one buffer. *)
Lemma remap_one_binding_per_resource_witness :
  let toolkit := Scripted.toolkit Scripted.named in
  let config := Scripted.request METAL SPIRV ["a"] in
  ∃ mslCompiler' added,
    remapResources config (newCompilerMSL config [1; 100]) = inr mslCompiler'
    ∧ msl_resource_bindings mslCompiler' = added
    ∧ length added = 2%nat
    ∧ Forall (λ b, stage b = 4) added.
Proof.
  cbv zeta.
  destruct (@remapResources (Scripted.toolkit Scripted.named)
              (Scripted.request METAL SPIRV ["a"])
              (@newCompilerMSL (Scripted.toolkit Scripted.named)
                 (Scripted.request METAL SPIRV ["a"]) [1; 100]))
    as [fault|mslCompiler'] eqn:Hremap; [vm_compute in Hremap; discriminate |].
  destruct (@remap_adds_one_binding_per_resource
              (Scripted.toolkit Scripted.named)
              (Scripted.request METAL SPIRV ["a"]) _ mslCompiler' Hremap)
    as (_ & _ & _ & added & Hadded & Hlen & Hall).
  exists mslCompiler', added. repeat split; assumption.
Defined.

(** ** The driver, on the paths the claims leave out *)

Section DriverMore.
Context `{External}.

Lemma bind_ret_r {A} (m : M A) out : (m ≫= mret) out = m out.
Proof.
  rewrite bind_unfold. destruct (m out) as [a out' evs|]; [| reflexivity].
  cbn. by rewrite app_nil_r.
Qed.

Lemma after_not_false evs (o : Outcome bool) :
  (∀ out' evs', o ≠ Returned false out' evs') →
  ∀ out' evs', after evs o ≠ Returned false out' evs'.
Proof.
  intros Ho out' evs'. destruct o as [[] out1 evs1|]; cbn; try discriminate.
  exfalso. by eapply Ho.
Qed.

Lemma bind_not_false {A} (m : M A) (k : A → M bool) out :
  (∀ a out1 out' evs', k a out1 ≠ Returned false out' evs') →
  ∀ out' evs', (m ≫= k) out ≠ Returned false out' evs'.
Proof.
  intros Hk out' evs'. rewrite bind_unfold.
  destruct (m out) as [a out1 evs1|]; [| discriminate].
  apply after_not_false. intros ? ?. apply Hk.
Qed.

(** X14. [process] returns false only for a failed parse or a failed link
    of the source, off the fast path, and then it has stored nothing: the
    outputs are as the caller passed them and the events are the front-end
    calls and the one error line. Whatever happens after a successful link,
    at any level, [process] does not return false. *)
Theorem false_only_for_parse_or_link_failure
    (self : GLSLPostProcessor) (inputShader : string) (config : Config)
    (out out' : Outputs) (evs : list Event) :
  let parsed := parseInput inputShader config in
  let linked := linkInput config parsed.2 in
  process self inputShader config out = Returned false out' evs →
  targetLanguage config ≠ GLSL
  ∧ out' = out
  ∧ ((parsed.1 = false
      ∧ evs = [Parsed false; Log_e (TShader_getInfoLog parsed.2)])
     ∨ (parsed.1 = true ∧ linked.1.1 = false
        ∧ evs = [Parsed true; Linked false;
                 Log_e (TShader_getInfoLog linked.2)])).
Proof.
  intros parsed linked Hrun.
  destruct (decide (targetLanguage config = GLSL)) as [Hlang | Hlang].
  - exfalso. revert Hrun. unfold process.
    rewrite bool_decide_eq_true_2 by exact Hlang.
    apply bind_not_false. intros _ out1. apply bind_not_false.
    intros _ out2 out3 evs3. discriminate.
  - split; [exact Hlang |].
    rewrite process_off_fast_path in Hrun by exact Hlang. cbv zeta in Hrun.
    fold parsed in Hrun. fold linked in Hrun.
    destruct (parsed.1); cbn [negb] in Hrun.
    2:{ injection Hrun as <- <-. split; [reflexivity | by left]. }
    destruct (linked.1.1); cbn [negb] in Hrun.
    2:{ injection Hrun as <- <-. split; [reflexivity | by right]. }
    exfalso. revert Hrun. apply after_not_false.
    apply bind_not_false. intros _ out1. apply bind_not_false.
    intros _ out2 out3 evs3. discriminate.
Qed.

(** The NONE branch with the binary-IR slot passed: the module is lowered
    from the linked program into the slot, then cross-translated if the
    cross-source slot was passed. *)
Lemma noOptimization_run (self : GLSLPostProcessor) (program : TProgram)
    (config : Config) (internalConfig : InternalConfig) (out : Outputs)
    (spirv0 : SpirvBlob) :
  let lowered :=
    GlslangToSpv (TProgram_getIntermediate program (shLang internalConfig))
      spirv0 {| generateDebugInfo := mGenerateDebugInfo self |} in
  outputSpirv out = Some spirv0 →
  outputMsl out = None ∨ crossTranslates config (Some lowered) →
  ∃ msl crossEvents,
    Forall (λ e, e = Stored CrossSource) crossEvents
    ∧ noOptimization self program config internalConfig out
      = Returned tt (mkOutputs (outputGlsl out) (Some lowered) msl)
          (Stored BinaryIR :: crossEvents).
Proof.
  intros lowered Hspirv Hmsl.
  destruct out as [g s m]. cbn [outputSpirv outputGlsl outputMsl] in *.
  subst s.
  destruct (crossTranslation_of_slot config (mkOutputs g (Some lowered) m)
              mret Hmsl)
    as (msl & crossEvents & Hforall & Hcross).
  exists msl, crossEvents. split; [exact Hforall |].
  unfold noOptimization. rewrite bind_requested.
  cbn [outputSpirv non_null].
  rewrite bind_load_spirv, bind_store_spirv. fold lowered.
  rewrite bind_requested in Hcross. rewrite bind_ret_r in Hcross.
  rewrite bind_requested, Hcross. unfold mret, M_ret. cbn.
  by rewrite app_nil_r.
Qed.

(** X15. At level NONE with the binary-IR slot passed, off the fast path,
    after a successful parse and link and when the cross-translation is not
    requested or completes: [process] returns true, the binary-IR slot
    holds what the lowering of the linked program made of its previous
    content, and the native-source slot, if passed, is only stripped of
    whitespace: at this level struct fields are not renamed and no source
    is generated into it. No error is logged. *)
Theorem none_with_binary_slot_lowers_directly
    (self : GLSLPostProcessor) (inputShader : string) (config : Config)
    (out : Outputs) (spirv0 : SpirvBlob) :
  let parsed := parseInput inputShader config in
  let linked := linkInput config parsed.2 in
  let lowered :=
    GlslangToSpv (TProgram_getIntermediate linked.1.2 (shLangOf config))
      spirv0 {| generateDebugInfo := mGenerateDebugInfo self |} in
  mOptimization self = NONE →
  targetLanguage config ≠ GLSL →
  parsed.1 = true →
  linked.1.1 = true →
  outputSpirv out = Some spirv0 →
  outputMsl out = None ∨ crossTranslates config (Some lowered) →
  ∃ msl crossEvents,
    Forall (λ e, e = Stored CrossSource) crossEvents
    ∧ process self inputShader config out
      = Returned true
          (mkOutputs (removeWhitespace <$> outputGlsl out) (Some lowered) msl)
          ([Parsed true; Linked true; Stored BinaryIR]
             ++ crossEvents
             ++ match outputGlsl out with
                | Some glsl =>
                    Stored NativeSource
                      :: if mPrintShaders self
                         then [Log_i (removeWhitespace glsl)] else []
                | None => []
                end).
Proof.
  intros parsed linked lowered Hlevel Hlang Hparse Hlink Hspirv Hmsl.
  set (internalConfig :=
         {| shLang := shLangOf config;
            langVersion :=
              GLSLTools_glslangVersionFromShaderModel (shaderModel config) |}).
  destruct (noOptimization_run self linked.1.2 config internalConfig out
              spirv0 Hspirv Hmsl)
    as (msl & crossEvents & Hforall & Hrun).
  exists msl, crossEvents. split; [exact Hforall |].
  rewrite process_off_fast_path by exact Hlang. cbv zeta.
  fold parsed. fold linked. fold internalConfig.
  rewrite Hparse, Hlink. cbn [negb].
  unfold optimizationSwitch. rewrite Hlevel.
  rewrite bind_unfold, Hrun, bind_unfold, finalizeGlsl_run.
  rewrite Hlevel. cbn [outputGlsl outputSpirv outputMsl].
  fold lowered.
  destruct (outputGlsl out) as [g|], (mPrintShaders self); cbn;
    repeat (rewrite <- app_assoc; cbn); rewrite ?app_nil_r; reflexivity.
Qed.

(** X16. At level SIZE or PERFORMANCE, off the fast path, after a
    successful parse and link and a successful optimizer run, and when the
    cross-translation is not requested or completes: [process] returns
    true, the dead-object sweep follows the run, and every output that was
    passed comes from the one swept module: the binary-IR slot holds it,
    the cross-source text is translated from it, and the native-source slot
    holds its back-translation, stripped of whitespace and with struct
    fields renamed. The binary-IR slot's previous content is discarded. *)
Theorem full_optimization_outputs_share_swept_module
    (self : GLSLPostProcessor) (inputShader : string) (config : Config)
    (out : Outputs) :
  let parsed := parseInput inputShader config in
  let linked := linkInput config parsed.2 in
  let lowered :=
    GlslangToSpv (TShader_getIntermediate linked.2) []
      {| generateDebugInfo := mGenerateDebugInfo self |} in
  let ran :=
    Optimizer_Run (createOptimizer (mOptimization self) config) lowered in
  let swept := spirvbin_remap_DCE_ALL ran.1.2 in
  let glsl :=
    renameStructFields
      (removeWhitespace
         (CompilerGLSL_compile (newCompilerGLSL config linked.2 swept))) in
  mOptimization self = SIZE ∨ mOptimization self = PERFORMANCE →
  targetLanguage config ≠ GLSL →
  parsed.1 = true →
  linked.1.1 = true →
  ran.1.1 = true →
  outputMsl out = None ∨ crossTranslates config (Some swept) →
  ∃ consumerLog msl crossEvents,
    Forall (λ e, ∃ text, e = Log_e text) consumerLog
    ∧ Forall (λ e, e = Stored CrossSource) crossEvents
    ∧ (∀ mslCompiler,
         is_Some (outputMsl out) →
         remapResources config (newCompilerMSL config swept)
         = inr mslCompiler →
         msl = Some (removeWhitespace (CompilerMSL_compile mslCompiler)))
    ∧ process self inputShader config out
      = Returned true
          (mkOutputs ((λ _, glsl) <$> outputGlsl out)
             ((λ _, swept) <$> outputSpirv out) msl)
          ([Parsed true; Linked true]
             ++ consumerLog
             ++ [OptimizerRan true; DeadObjectsSwept]
             ++ (if non_null (outputSpirv out) then [Stored BinaryIR] else [])
             ++ crossEvents
             ++ (if non_null (outputGlsl out) then
                   [Stored NativeSource; Stored NativeSource;
                    Stored NativeSource]
                     ++ (if mPrintShaders self then [Log_i glsl] else [])
                 else [])).
Proof.
  intros parsed linked lowered ran swept glsl
    Hlevel Hlang Hparse Hlink Hok Hmsl.
  set (internalConfig :=
         {| shLang := shLangOf config;
            langVersion :=
              GLSLTools_glslangVersionFromShaderModel (shaderModel config) |}).
  pose proof (fullOptimization_run self linked.2 config internalConfig out)
    as Hrun.
  cbv zeta in Hrun. fold lowered in Hrun. fold ran in Hrun.
  rewrite Hok in Hrun. fold swept in Hrun.
  destruct (Hrun Hmsl) as (consumerLog & msl & crossEvents & Hlog & Hforall
                           & Hfull).
  exists consumerLog, msl, crossEvents.
  split; [exact Hlog |]. split; [exact Hforall |].
  assert (Hswitch :
    optimizationSwitch self linked.1.2 linked.2 config internalConfig
    = fullOptimization self linked.2 config internalConfig).
  { unfold optimizationSwitch. by destruct Hlevel as [-> | ->]. }
  assert (Hnot : bool_decide (mOptimization self ≠ NONE) = true).
  { apply bool_decide_eq_true_2. by destruct Hlevel as [-> | ->]. }
  split.
  - intros mslCompiler [m0 Hm0] Hremap.
    unfold fullOptimization in Hfull. cbv zeta in Hfull.
    fold lowered in Hfull.
    destruct (optimizeSpirv_run
                (createOptimizer (mOptimization self) config) lowered out)
      as (consumerLog' & _ & Hopt).
    cbv zeta in Hopt. fold ran in Hopt. rewrite Hok in Hopt.
    fold swept in Hopt.
    rewrite bind_unfold, Hopt, bind_requested in Hfull.
    destruct out as [g [s|] m]; cbn in Hm0; subst m;
      cbn [outputGlsl outputSpirv outputMsl non_null when fmap option_fmap
           option_map] in Hfull;
      rewrite ?bind_ret, ?bind_store_spirv, bind_requested in Hfull;
      cbn [outputMsl non_null when] in Hfull;
      rewrite bind_unfold in Hfull;
      rewrite (spirvToToMsl_run config swept mslCompiler) in Hfull
        by (cbn; eauto);
      rewrite bind_requested in Hfull;
      destruct g; cbn in Hfull; congruence.
  - rewrite process_off_fast_path by exact Hlang. cbv zeta.
    fold parsed. fold linked. fold internalConfig.
    rewrite Hparse, Hlink. cbn [negb].
    rewrite Hswitch, bind_unfold, Hfull, bind_unfold, finalizeGlsl_run.
    rewrite Hnot. cbn [outputGlsl outputSpirv outputMsl]. subst glsl.
    destruct (outputGlsl out) as [g|], (mPrintShaders self); cbn;
      repeat (rewrite <- app_assoc; cbn); rewrite ?app_nil_r; reflexivity.
Qed.

End DriverMore.

(** ** A failed lookup in the middle of a request *)

Section LookupFault.
Context `{External}.

Lemma spirvToToMsl_fault config spirv fault out :
  remapResources config (newCompilerMSL config spirv) = inl fault →
  spirvToToMsl (Some spirv) config out = Aborted fault out [].
Proof.
  intros Hremap. unfold spirvToToMsl. rewrite bind_unfold, Hremap.
  reflexivity.
Qed.

(** X17. At level NONE with the binary-IR and cross-source slots passed,
    when the remap of the lowered module fails on an unregistered sampler,
    the fault leaves [process] in the middle of the request: the binary-IR
    slot has already been stored to, the cross-source slot has not, the
    native-source slot has not been finalized, and nothing is logged. *)
Theorem lookup_fault_at_none_leaves_binary_stored
    (self : GLSLPostProcessor) (inputShader : string) (config : Config)
    (out : Outputs) (spirv0 : SpirvBlob) (fault : Fault) :
  let parsed := parseInput inputShader config in
  let linked := linkInput config parsed.2 in
  let lowered :=
    GlslangToSpv (TProgram_getIntermediate linked.1.2 (shLangOf config))
      spirv0 {| generateDebugInfo := mGenerateDebugInfo self |} in
  mOptimization self = NONE →
  targetLanguage config ≠ GLSL →
  parsed.1 = true →
  linked.1.1 = true →
  outputSpirv out = Some spirv0 →
  is_Some (outputMsl out) →
  remapResources config (newCompilerMSL config lowered) = inl fault →
  process self inputShader config out
  = Aborted fault
      (mkOutputs (outputGlsl out) (Some lowered) (outputMsl out))
      [Parsed true; Linked true; Stored BinaryIR].
Proof.
  intros parsed linked lowered Hlevel Hlang Hparse Hlink Hspirv [m0 Hm0]
    Hremap.
  rewrite process_off_fast_path by exact Hlang. cbv zeta.
  fold parsed. fold linked. rewrite Hparse, Hlink. cbn [negb].
  unfold optimizationSwitch. rewrite Hlevel.
  destruct out as [g s m]. cbn [outputGlsl outputSpirv outputMsl] in *.
  subst s m.
  rewrite bind_unfold. unfold noOptimization.
  rewrite bind_requested. cbn [outputSpirv non_null shLang].
  rewrite bind_load_spirv, bind_store_spirv. fold lowered.
  rewrite bind_requested. cbn [outputMsl non_null when].
  rewrite (bind_unfold spirvOutput_ptr). unfold spirvOutput_ptr at 1.
  cbn [outputSpirv]. rewrite after_nil.
  rewrite (spirvToToMsl_fault config lowered fault) by exact Hremap.
  reflexivity.
Qed.

(** X18. At level SIZE or PERFORMANCE with the cross-source slot passed,
    when the remap of the optimized module fails on an unregistered
    sampler, the fault leaves [process] after the optimizer run and after
    the store to the binary-IR slot, if that slot was passed, and before
    any native source is produced: the native-source and cross-source
    slots are as the caller passed them. *)
Theorem lookup_fault_after_optimization_skips_native_source
    (self : GLSLPostProcessor) (inputShader : string) (config : Config)
    (out : Outputs) (fault : Fault) :
  let parsed := parseInput inputShader config in
  let linked := linkInput config parsed.2 in
  let lowered :=
    GlslangToSpv (TShader_getIntermediate linked.2) []
      {| generateDebugInfo := mGenerateDebugInfo self |} in
  let ran :=
    Optimizer_Run (createOptimizer (mOptimization self) config) lowered in
  let spirv :=
    if ran.1.1 then spirvbin_remap_DCE_ALL ran.1.2 else ran.1.2 in
  mOptimization self = SIZE ∨ mOptimization self = PERFORMANCE →
  targetLanguage config ≠ GLSL →
  parsed.1 = true →
  linked.1.1 = true →
  is_Some (outputMsl out) →
  remapResources config (newCompilerMSL config spirv) = inl fault →
  ∃ consumerLog,
    Forall (λ e, ∃ text, e = Log_e text) consumerLog
    ∧ process self inputShader config out
      = Aborted fault
          (mkOutputs (outputGlsl out) ((λ _, spirv) <$> outputSpirv out)
             (outputMsl out))
          ([Parsed true; Linked true]
             ++ consumerLog
             ++ OptimizerRan ran.1.1
             :: (if ran.1.1 then [DeadObjectsSwept]
                 else [Log_e "SPIR-V optimizer pass failed"])
             ++ (if non_null (outputSpirv out) then [Stored BinaryIR]
                 else [])).
Proof.
  intros parsed linked lowered ran spirv Hlevel Hlang Hparse Hlink [m0 Hm0]
    Hremap.
  destruct (optimizeSpirv_run
              (createOptimizer (mOptimization self) config) lowered out)
    as (consumerLog & Hlog & Hopt).
  cbv zeta in Hopt. fold ran in Hopt. fold spirv in Hopt.
  exists consumerLog. split; [exact Hlog |].
  rewrite process_off_fast_path by exact Hlang. cbv zeta.
  fold parsed. fold linked. rewrite Hparse, Hlink. cbn [negb].
  assert (Hswitch : ∀ internalConfig,
    optimizationSwitch self linked.1.2 linked.2 config internalConfig
    = fullOptimization self linked.2 config internalConfig).
  { intros ?. unfold optimizationSwitch. by destruct Hlevel as [-> | ->]. }
  rewrite Hswitch, bind_unfold. unfold fullOptimization. cbv zeta.
  fold lowered. rewrite bind_unfold, Hopt, bind_requested.
  destruct out as [g [s|] m]; cbn [outputGlsl outputSpirv outputMsl] in *;
    subst m;
    cbn [non_null when fmap option_fmap option_map];
    rewrite ?bind_ret, ?bind_store_spirv, bind_requested;
    cbn [outputMsl non_null when];
    rewrite bind_unfold;
    rewrite (spirvToToMsl_fault config spirv fault) by exact Hremap;
    destruct (ran.1.1); cbn; rewrite <- ?app_assoc; cbn;
    rewrite ?app_nil_r; reflexivity.
Qed.

End LookupFault.

(** ** Further concrete runs *)

(** A rejected source: the false return is explained by the parse. *)
Lemma false_return_witness :
  let toolkit := Scripted.toolkit Scripted.rejecting in
  let parsed :=
    parseInput "void main(){" (Scripted.request VULKAN SPIRV []) in
  parsed.1 = false
  ∨ parsed.1 = true
    ∧ (linkInput (Scripted.request VULKAN SPIRV []) parsed.2).1.1 = false.
Proof.
  cbv zeta.
  destruct (@false_only_for_parse_or_link_failure
              (Scripted.toolkit Scripted.rejecting)
              (mkGLSLPostProcessor SIZE true false) "void main(){"
              (Scripted.request VULKAN SPIRV []) Scripted.allSlots
              Scripted.allSlots [Parsed false; Log_e "ERROR: parse failed"]
              eq_refl)
    as (_ & _ & [[Hparse _] | (Hparse & Hlink & _)]).
  - left. exact Hparse.
  - right. split; [exact Hparse | exact Hlink].
Defined.

(** Level NONE with all three slots on a Vulkan request. *)
Lemma none_with_binary_slot_witness :
  let toolkit := Scripted.toolkit Scripted.plain in
  ∃ msl crossEvents,
    process (mkGLSLPostProcessor NONE false false) "void main(){}"
      (Scripted.request METAL SPIRV []) Scripted.allSlots
    = Returned true (mkOutputs (Some "") (Some [119734787]) msl)
        ([Parsed true; Linked true; Stored BinaryIR]
           ++ crossEvents ++ [Stored NativeSource]).
Proof.
  cbv zeta.
  destruct (@none_with_binary_slot_lowers_directly
              (Scripted.toolkit Scripted.plain)
              (mkGLSLPostProcessor NONE false false) "void main(){}"
              (Scripted.request METAL SPIRV []) Scripted.allSlots [])
    as (msl & crossEvents & _ & Hrun).
  - reflexivity.
  - discriminate.
  - reflexivity.
  - reflexivity.
  - reflexivity.
  - right. eexists _, _. split; reflexivity.
  - exists msl, crossEvents. exact Hrun.
Defined.

(** Level PERFORMANCE with all three slots and a successful run. *)
Lemma full_optimization_witness :
  let toolkit := Scripted.toolkit Scripted.plain in
  ∃ consumerLog msl crossEvents,
    process (mkGLSLPostProcessor PERFORMANCE false false) "void main(){}"
      (Scripted.request METAL SPIRV []) Scripted.allSlots
    = Returned true (mkOutputs (Some "glsl") (Some [119734787]) msl)
        ([Parsed true; Linked true]
           ++ consumerLog
           ++ [OptimizerRan true; DeadObjectsSwept]
           ++ [Stored BinaryIR]
           ++ crossEvents
           ++ [Stored NativeSource; Stored NativeSource;
               Stored NativeSource]).
Proof.
  cbv zeta.
  destruct (@full_optimization_outputs_share_swept_module
              (Scripted.toolkit Scripted.plain)
              (mkGLSLPostProcessor PERFORMANCE false false) "void main(){}"
              (Scripted.request METAL SPIRV []) Scripted.allSlots)
    as (consumerLog & msl & crossEvents & _ & _ & _ & Hrun).
  - right. reflexivity.
  - discriminate.
  - reflexivity.
  - reflexivity.
  - reflexivity.
  - right. eexists _, _. split; reflexivity.
  - exists consumerLog, msl, crossEvents. exact Hrun.
Defined.

(** Level NONE on a module whose sampled image a the material does not
    register. *)
Lemma lookup_fault_at_none_witness :
  let toolkit := Scripted.toolkit Scripted.named in
  process (mkGLSLPostProcessor NONE false false) "void main(){}"
    (Scripted.request METAL SPIRV ["b"]) Scripted.allSlots
  = Aborted (OutOfRange "a") (mkOutputs (Some "") (Some [1; 100]) (Some ""))
      [Parsed true; Linked true; Stored BinaryIR].
Proof.
  cbv zeta.
  apply (@lookup_fault_at_none_leaves_binary_stored
           (Scripted.toolkit Scripted.named)
           (mkGLSLPostProcessor NONE false false) "void main(){}"
           (Scripted.request METAL SPIRV ["b"]) Scripted.allSlots []
           (OutOfRange "a")).
  - reflexivity.
  - discriminate.
  - reflexivity.
  - reflexivity.
  - reflexivity.
  - eexists. reflexivity.
  - vm_compute. reflexivity.
Defined.

(** Level SIZE on the same module. *)
Lemma lookup_fault_after_optimization_witness :
  let toolkit := Scripted.toolkit Scripted.named in
  ∃ consumerLog,
    process (mkGLSLPostProcessor SIZE false false) "void main(){}"
      (Scripted.request METAL SPIRV ["b"]) Scripted.allSlots
    = Aborted (OutOfRange "a")
        (mkOutputs (Some "") (Some [1; 100]) (Some ""))
        ([Parsed true; Linked true]
           ++ consumerLog
           ++ [OptimizerRan true; DeadObjectsSwept; Stored BinaryIR]).
Proof.
  cbv zeta.
  destruct (@lookup_fault_after_optimization_skips_native_source
              (Scripted.toolkit Scripted.named)
              (mkGLSLPostProcessor SIZE false false) "void main(){}"
              (Scripted.request METAL SPIRV ["b"]) Scripted.allSlots
              (OutOfRange "a"))
    as (consumerLog & _ & Hrun).
  - left. reflexivity.
  - discriminate.
  - reflexivity.
  - reflexivity.
  - eexists. reflexivity.
  - vm_compute. reflexivity.
  - exists consumerLog. exact Hrun.
Defined.

(** ** The web sample *)

Section PointerEvents.
Import filaweb.

Lemma land_bit_mod (buttons : Z) (i : Z) :
  0 ≤ i < 16 →
  bool_decide (Z.land (buttons mod 2 ^ 16) (2 ^ i) ≠ 0) = Z.testbit buttons i.
Proof.
  intros Hi.
  assert (Hland : Z.land (buttons mod 2 ^ 16) (2 ^ i)
                  = if Z.testbit buttons i then 2 ^ i else 0).
  { apply Z.bits_inj'. intros n Hn.
    rewrite Z.land_spec, Z.pow2_bits_eqb by lia.
    destruct (Z.eqb_spec i n) as [<- | Hne].
    - rewrite andb_true_r, Z.mod_pow2_bits_low by lia.
      destruct (Z.testbit buttons i).
      + by rewrite Z.pow2_bits_true by lia.
      + by rewrite Z.bits_0.
    - rewrite andb_false_r.
      destruct (Z.testbit buttons i);
        [by rewrite Z.pow2_bits_false by lia | by rewrite Z.bits_0]. }
  rewrite Hland. destruct (Z.testbit buttons i).
  - apply bool_decide_eq_true_2. pose proof (Z.pow_pos_nonneg 2 i). lia.
  - apply bool_decide_eq_false_2. intros Hne. by apply Hne.
Qed.

(** The two tests of a wheel argument, as one step by its sign. *)
Lemma wheel_steps (step : Z → Effect) (w : Z) (rest : list Effect) :
  (if bool_decide (w > 0) then [step 1] else [])
    ++ (if bool_decide (w < 0) then [step (-1)] else []) ++ rest
  = (if bool_decide (w = 0) then [] else [step (Z.sgn w)]) ++ rest.
Proof.
  destruct (Z.lt_trichotomy w 0) as [Hlt | [-> | Hgt]].
  - rewrite Z.sgn_neg by lia.
    rewrite (bool_decide_eq_false_2 (w > 0)), (bool_decide_eq_true_2 (w < 0)),
      (bool_decide_eq_false_2 (w = 0)) by lia.
    reflexivity.
  - reflexivity.
  - rewrite Z.sgn_pos by lia.
    rewrite (bool_decide_eq_true_2 (w > 0)), (bool_decide_eq_false_2 (w < 0)),
      (bool_decide_eq_false_2 (w = 0)) by lia.
    reflexivity.
Qed.

(** Up to [2^24] the conversion to [float] keeps the value. *)
Lemma float_of_uint32_exact (c : Z) :
  0 ≤ c ≤ 2 ^ 24 → float_of_uint32 c = c.
Proof.
  intros Hc.
  destruct (decide (c = 2 ^ 24)) as [-> | Hne]; [reflexivity |].
  unfold float_of_uint32. cbv zeta.
  rewrite bool_decide_eq_true_2; [reflexivity |].
  destruct (decide (c = 0)) as [-> | Hpos]; [done |].
  apply Z.log2_lt_pow2; lia.
Qed.

(** Above, it moves an [int] by at most half the spacing of the floats,
    which is at most 64. *)
Lemma float_of_uint32_near (c : Z) :
  0 ≤ c < 2 ^ 31 → Z.abs (float_of_uint32 c - c) ≤ 64.
Proof.
  intros Hc. unfold float_of_uint32. cbv zeta.
  case_bool_decide as He; [lia |].
  assert (Hlog : Z.log2 c < 31).
  { apply Z.log2_lt_pow2; [| lia].
    destruct (decide (c = 0)) as [-> | Hpos]; [done | lia]. }
  assert (Hulp : 2 ≤ 2 ^ (Z.log2 c - 23) ≤ 128).
  { split.
    - change 2 with (2 ^ 1) at 1. apply Z.pow_le_mono_r; lia.
    - change 128 with (2 ^ 7). apply Z.pow_le_mono_r; lia. }
  set (ulp := 2 ^ (Z.log2 c - 23)) in *.
  pose proof (Z.div_mod c ulp ltac:(lia)) as Hdiv.
  pose proof (Z.mod_pos_bound c ulp ltac:(lia)) as Hrem.
  replace ((c / ulp + 1) * ulp) with (ulp * (c / ulp) + ulp) by ring.
  replace (c / ulp * ulp) with (ulp * (c / ulp)) by ring.
  revert Hdiv. generalize (ulp * (c / ulp)) as whole. intros whole Hdiv.
  repeat case_bool_decide; destruct (Z.even (c / ulp)); lia.
Qed.

(** X19. What the entry point [mouse] does to ImGui, for any five
    integers, in full and in program order: at most one step of each wheel,
    by the sign of its argument and none for 0; then the position, negative
    coordinates raised to 0 and the result converted to [float]; then the
    first three buttons, button [i] down exactly when bit [i] of [buttons]
    is set. Nothing else reaches ImGui: what follows are the calls of the
    camera manipulator. The conversion keeps a coordinate up to [2^24] and
    moves a larger one by at most 64. *)
Theorem mouse_reports_pointer_to_imgui
    (WantCaptureMouse : bool) (statics : option MouseStatics)
    (x y wx wy buttons : Z) :
  (∃ camera,
     (mouse WantCaptureMouse statics x y wx wy buttons).1
     = (if bool_decide (wx = 0) then [] else [AddMouseWheelH (Z.sgn wx)])
         ++ (if bool_decide (wy = 0) then [] else [AddMouseWheel (Z.sgn wy)])
         ++ [SetMousePos (float_of_uint32 (Z.max 0 x))
               (float_of_uint32 (Z.max 0 y));
             SetMouseDown 0 (Z.testbit buttons 0);
             SetMouseDown 1 (Z.testbit buttons 1);
             SetMouseDown 2 (Z.testbit buttons 2)]
         ++ camera
     ∧ Forall (λ e, (∃ d, e = dolly d) ∨ (∃ delta, e = rotate delta)) camera)
  ∧ (∀ c, 0 ≤ c ≤ 2 ^ 24 → float_of_uint32 c = c)
  ∧ (∀ c, 0 ≤ c < 2 ^ 31 → Z.abs (float_of_uint32 c - c) ≤ 64).
Proof.
  split; [| split; [exact float_of_uint32_exact | exact float_of_uint32_near]].
  unfold mouse, Application_mouse. cbv zeta. cbn [fst].
  assert (Hb0 : bool_decide (Z.land (buttons mod 2 ^ 16) 1 ≠ 0)
                = Z.testbit buttons 0)
    by exact (land_bit_mod buttons 0 ltac:(lia)).
  assert (Hb1 : bool_decide (Z.land (buttons mod 2 ^ 16) 2 ≠ 0)
                = Z.testbit buttons 1)
    by exact (land_bit_mod buttons 1 ltac:(lia)).
  assert (Hb2 : bool_decide (Z.land (buttons mod 2 ^ 16) 4 ≠ 0)
                = Z.testbit buttons 2)
    by exact (land_bit_mod buttons 2 ltac:(lia)).
  rewrite Hb0, Hb1, Hb2. clear Hb0 Hb1 Hb2.
  rewrite (wheel_steps AddMouseWheelH wx), (wheel_steps AddMouseWheel wy).
  eexists. split.
  - rewrite <- !app_assoc. reflexivity.
  - destruct (negb WantCaptureMouse && _ && _); cbn [app];
      repeat (constructor;
              [first [left; by eexists | right; by eexists] |]);
      constructor.
Qed.

End PointerEvents.

Section CameraDrag.
Import filaweb.

(** The calls of the camera manipulator, by membership. *)
Lemma Application_mouse_camera_calls
    (WantCaptureMouse : bool) (statics : option MouseStatics)
    (x y wx wy buttons : Z) :
  let run := Application_mouse WantCaptureMouse statics x y wx wy buttons in
  (∀ d, dolly d ∈ run.1 ↔ d = neg_int32 wy)
  ∧ (∀ delta,
       rotate delta ∈ run.1
       ↔ WantCaptureMouse = false
         ∧ buttons = 1
         ∧ match statics with
           | None => delta = (0, 0)
           | Some previous =>
               previousMouseButtons previous = 1
               ∧ delta
                 = (x - (previousMousePosition previous).1,
                    neg_uint32 y - (previousMousePosition previous).2)
           end)
  ∧ run.2 = Some (mkMouseStatics (x, neg_uint32 y) buttons).
Proof.
  cbv zeta. unfold Application_mouse. cbv zeta. cbn [fst snd].
  split; [| split; [| reflexivity]].
  - intros d. split.
    + intros Hin.
      destruct (negb WantCaptureMouse && _ && _);
        repeat case_bool_decide; in_cases Hin; by injection Hin as ->.
    + intros ->. find_in.
  - intros delta. split.
    + intros Hin.
      destruct WantCaptureMouse; cbn [negb andb] in Hin;
        repeat case_bool_decide; in_cases Hin.
      all: injection Hin as ->; (split; [reflexivity |]); (split; [done |]).
      all: destruct statics as [previous|];
        cbn [previousMousePosition previousMouseButtons fst snd] in *.
      all: first [ by rewrite !Z.sub_diag
                 | split; [congruence | reflexivity] ].
    + intros (-> & -> & Hprevious).
      assert (Hsame :
        bool_decide
          (1 = previousMouseButtons
                 match statics with
                 | Some statics0 => statics0
                 | None => mkMouseStatics (x, neg_uint32 y) 1
                 end) = true).
      { apply bool_decide_eq_true_2.
        destruct statics as [previous|]; [by destruct Hprevious | done]. }
      rewrite Hsame, (bool_decide_eq_true_2 (1 = 1)) by done.
      cbn [negb andb].
      destruct statics as [previous|].
      * destruct Hprevious as [_ ->]. find_in.
      * subst delta. cbn [previousMousePosition fst snd].
        rewrite !Z.sub_diag. find_in.
Qed.

(** X20. What [Application::mouse] passes to the camera manipulator, in
    full. After the stores to ImGui it calls [dolly] once, on every event,
    with the negated vertical wheel argument. Then it calls [rotate], once,
    exactly when ImGui does not capture the mouse and [buttons] is 1 both
    in this event and in the previous one; the first event counts as its
    own predecessor, so it rotates by (0, 0) if the left button is down.
    The rotation is the movement since the previous event, with the
    vertical coordinate negated as a [uint32_t]. There is no other call of
    the manipulator. Afterwards the statics hold this event's position and
    buttons. *)
Theorem rotate_only_while_left_button_held
    (WantCaptureMouse : bool) (statics : option MouseStatics)
    (x y wx wy buttons : Z) :
  let run := Application_mouse WantCaptureMouse statics x y wx wy buttons in
  let held :=
    negb WantCaptureMouse
    && bool_decide (buttons = 1)
    && match statics with
       | None => true
       | Some previous => bool_decide (previousMouseButtons previous = 1)
       end in
  let delta :=
    match statics with
    | None => (0, 0)
    | Some previous =>
        (x - (previousMousePosition previous).1,
         neg_uint32 y - (previousMousePosition previous).2)
    end in
  (∃ imgui,
     Forall (λ e, (∀ d, e ≠ dolly d) ∧ (∀ delta', e ≠ rotate delta')) imgui
     ∧ run.1
       = imgui ++ dolly (neg_int32 wy)
                 :: (if held then [rotate delta] else []))
  ∧ run.2 = Some (mkMouseStatics (x, neg_uint32 y) buttons).
Proof.
  cbv zeta. unfold Application_mouse. cbv zeta. cbn [fst snd].
  split; [| reflexivity].
  eexists. split; [| f_equal; f_equal].
  - repeat case_bool_decide; repeat constructor; discriminate.
  - destruct WantCaptureMouse; cbn [negb andb]; [reflexivity |].
    destruct (decide (buttons = 1)) as [-> | Hne].
    + rewrite (bool_decide_eq_true_2 (1 = 1)) by done. cbn [andb].
      destruct statics as [previous|];
        cbn [previousMousePosition previousMouseButtons fst snd].
      * rewrite (bool_decide_ext (1 = previousMouseButtons previous)
                   (previousMouseButtons previous = 1)) by (split; congruence).
        reflexivity.
      * rewrite (bool_decide_eq_true_2 (1 = 1)) by done.
        by rewrite !Z.sub_diag.
    + rewrite (bool_decide_eq_false_2 (buttons = 1)) by done. reflexivity.
Qed.

(** X21. A drag with the left button held, seen through the entry point
    [mouse]: for two successive events below the top row, the second one
    rotates the camera by the horizontal movement and by the negated
    vertical movement, exactly. *)
Theorem drag_rotates_by_negated_vertical_movement
    (statics : option MouseStatics) (capture : bool)
    (x1 y1 wx1 wy1 buttons1 x2 y2 wx2 wy2 buttons2 : Z) :
  let first := mouse capture statics x1 y1 wx1 wy1 buttons1 in
  let second := mouse false first.2 x2 y2 wx2 wy2 buttons2 in
  0 < y1 < 2 ^ 32 →
  0 < y2 < 2 ^ 32 →
  buttons1 mod 2 ^ 16 = 1 →
  buttons2 mod 2 ^ 16 = 1 →
  rotate (Z.max 0 x2 - Z.max 0 x1, y1 - y2) ∈ second.1.
Proof.
  intros first second Hy1 Hy2 Hb1 Hb2.
  destruct (Application_mouse_camera_calls capture statics
              (Z.max 0 x1) (Z.max 0 y1) wx1 wy1 (buttons1 mod 2 ^ 16))
    as (_ & _ & Hstatics).
  destruct (Application_mouse_camera_calls false first.2
              (Z.max 0 x2) (Z.max 0 y2) wx2 wy2 (buttons2 mod 2 ^ 16))
    as (_ & Hrotate & _).
  apply Hrotate. split; [reflexivity |]. split; [exact Hb2 |].
  subst first. unfold mouse at 1. cbv zeta in Hstatics. rewrite Hstatics.
  cbn [previousMousePosition previousMouseButtons fst snd].
  split; [exact Hb1 |]. f_equal.
  unfold neg_uint32. rewrite !Z.max_r by lia.
  rewrite <- (Z_mod_plus_full (- y2) 1), <- (Z_mod_plus_full (- y1) 1).
  rewrite !Z.mod_small by lia. lia.
Qed.

(** X22. The same drag when it starts on the top row, or above it: the
    negation of the coordinate 0 is 0, not [2^32], so the vertical rotation
    is [2^32 - y2], a jump of almost [2^32], instead of [- y2]. *)
Theorem drag_from_top_row_jumps
    (statics : option MouseStatics) (capture : bool)
    (x1 y1 wx1 wy1 buttons1 x2 y2 wx2 wy2 buttons2 : Z) :
  let first := mouse capture statics x1 y1 wx1 wy1 buttons1 in
  let second := mouse false first.2 x2 y2 wx2 wy2 buttons2 in
  y1 ≤ 0 →
  0 < y2 < 2 ^ 32 →
  buttons1 mod 2 ^ 16 = 1 →
  buttons2 mod 2 ^ 16 = 1 →
  ∀ delta, rotate delta ∈ second.1
           ↔ delta = (Z.max 0 x2 - Z.max 0 x1, 2 ^ 32 - y2).
Proof.
  intros first second Hy1 Hy2 Hb1 Hb2 delta.
  destruct (Application_mouse_camera_calls capture statics
              (Z.max 0 x1) (Z.max 0 y1) wx1 wy1 (buttons1 mod 2 ^ 16))
    as (_ & _ & Hstatics).
  destruct (Application_mouse_camera_calls false first.2
              (Z.max 0 x2) (Z.max 0 y2) wx2 wy2 (buttons2 mod 2 ^ 16))
    as (_ & Hrotate & _).
  subst second. unfold mouse at 1. rewrite Hrotate. clear Hrotate.
  subst first. unfold mouse at 1. cbv zeta in Hstatics. rewrite Hstatics.
  cbn [previousMousePosition previousMouseButtons fst snd].
  assert (Hy : neg_uint32 (Z.max 0 y2) - neg_uint32 (Z.max 0 y1)
               = 2 ^ 32 - y2).
  { unfold neg_uint32. rewrite (Z.max_l 0 y1), (Z.max_r 0 y2) by lia.
    rewrite <- (Z_mod_plus_full (- y2) 1).
    rewrite (Z.mod_small (- y2 + 1 * 2 ^ 32)) by lia.
    rewrite Z.mod_0_l by lia. lia. }
  rewrite Hy. split.
  - by intros (_ & _ & _ & ->).
  - intros ->. by repeat split.
Qed.

End CameraDrag.

(** A drag from (10, 20) to (13, 25). *)
Lemma drag_witness :
  filaweb.rotate (3, -5)
  ∈ (filaweb.mouse false (filaweb.mouse false None 10 20 0 0 1).2
       13 25 0 0 1).1.
Proof.
  apply (drag_rotates_by_negated_vertical_movement None false
           10 20 0 0 1 13 25 0 0 1); [lia | lia | reflexivity | reflexivity].
Defined.

(** A drag from (10, 0) to (13, 25). *)
Lemma drag_from_top_row_witness :
  filaweb.rotate (3, 4294967271)
  ∈ (filaweb.mouse false (filaweb.mouse false None 10 0 0 0 1).2
       13 25 0 0 1).1.
Proof.
  apply (drag_from_top_row_jumps None false 10 0 0 0 1 13 25 0 0 1);
    [lia | lia | reflexivity | reflexivity | reflexivity].
Defined.

(** Two requests that differ in target language and sampler names. *)
Lemma pass_list_model_and_api_witness :
  createOptimizer SIZE (Scripted.request METAL SPIRV ["a"])
  = createOptimizer SIZE (Scripted.request METAL GLSL []).
Proof.
  apply (pass_list_depends_on_model_and_api_only SIZE
           (Scripted.request METAL SPIRV ["a"])
           (Scripted.request METAL GLSL [])); reflexivity.
Defined.

(** ** The environment upload of the web sample *)

Section EnvironmentUpload.
Import filaweb.

Lemma envUpload_exact (mip size : Z) :
  0 ≤ size →
  24 * size * size < 2 ^ 32 →
  envUpload mip size
  = mkImageUpload mip (24 * size * size)
      (mkFaceOffsets 0 (4 * size * size) (8 * size * size)
         (12 * size * size) (16 * size * size) (20 * size * size)).
Proof.
  intros Hsize Hbound. unfold envUpload, size_t. cbv zeta.
  change (2 ^ 32) with 4294967296 in *.
  rewrite (Z.mod_small (size * size)) by nia.
  rewrite (Z.mod_small (size * size * 4)) by nia.
  rewrite !Z.mod_small by nia.
  f_equal; [lia |]. f_equal; lia.
Qed.

Lemma shiftr_1_le (size : Z) : 0 ≤ size → 0 ≤ Z.shiftr size 1 ≤ size.
Proof.
  intros Hsize. rewrite Z.shiftr_div_pow2 by lia.
  change (2 ^ 1) with 2. split.
  - apply Z.div_pos; lia.
  - apply Z.div_le_upper_bound; lia.
Qed.

Lemma envLoop_length (remaining : nat) (mip size : Z) :
  length (envLoop remaining mip size) = remaining.
Proof.
  revert mip size.
  induction remaining as [|remaining IH]; intros mip size; cbn;
    [reflexivity | by rewrite IH].
Qed.

Lemma envLoop_lookup (remaining : nat) :
  ∀ (mip size : Z) (k : nat),
    0 ≤ size →
    24 * size * size < 2 ^ 32 →
    (k < remaining)%nat →
    envLoop remaining mip size !! k
    = Some (envUpload (mip + Z.of_nat k) (Z.shiftr size (Z.of_nat k))).
Proof.
  induction remaining as [|remaining IH]; intros mip size k Hsize Hbound Hk;
    [lia |].
  destruct k as [|k]; cbn [envLoop].
  - cbn. by rewrite Z.add_0_r.
  - change (envLoop remaining (mip + 1) (Z.shiftr size 1) !! k
            = Some (envUpload (mip + Z.of_nat (S k))
                      (Z.shiftr size (Z.of_nat (S k))))).
    pose proof (shiftr_1_le size Hsize) as Hhalf.
    rewrite (IH (mip + 1) (Z.shiftr size 1) k) by (lia || nia).
    rewrite Z.shiftr_shiftr by lia.
    replace (mip + 1 + Z.of_nat k) with (mip + Z.of_nat (S k)) by lia.
    by replace (1 + Z.of_nat k) with (Z.of_nat (S k)) by lia.
Qed.

(** X23. The mip loop of [getSkyLight]. For a cubemap whose six level-0
    faces fit in 32 bits of bytes, the loop uploads exactly [nmips] images,
    level [mip] in position [mip]; the face edge of level [mip] is
    [pixelWidth >> mip], the six faces are laid out back to back in the
    order +x, -x, +y, -y, +z, -z, each [4 * edge * edge] bytes, and the
    buffer holds exactly these six faces. *)
Theorem environment_levels_uploaded_back_to_back (pixelWidth nmips : Z) :
  0 ≤ pixelWidth < 2 ^ 32 →
  24 * pixelWidth * pixelWidth < 2 ^ 32 →
  length (envUploads pixelWidth nmips) = Z.to_nat nmips
  ∧ ∀ mip, 0 ≤ mip < nmips →
      let edge := Z.shiftr pixelWidth mip in
      let faceSize := 4 * edge * edge in
      envUploads pixelWidth nmips !! Z.to_nat mip
      = Some (mkImageUpload mip (6 * faceSize)
                (mkFaceOffsets 0 faceSize (2 * faceSize) (3 * faceSize)
                   (4 * faceSize) (5 * faceSize))).
Proof.
  intros Hwidth Hbound. unfold envUploads, size_t.
  rewrite Z.mod_small by lia.
  split; [apply envLoop_length |].
  intros mip Hmip. cbv zeta.
  rewrite envLoop_lookup by lia.
  rewrite Z2Nat.id, Z.add_0_l by lia.
  set (edge := Z.shiftr pixelWidth mip).
  assert (Hedge : 0 ≤ edge ≤ pixelWidth).
  { subst edge. rewrite Z.shiftr_div_pow2 by lia. split.
    - apply Z.div_pos; lia.
    - apply Z.div_le_upper_bound; [lia |].
      assert (1 ≤ 2 ^ mip) by lia. nia. }
  rewrite envUpload_exact by (lia || nia).
  do 2 f_equal; [lia |]. f_equal; lia.
Qed.

End EnvironmentUpload.

(** A 256-texel cubemap with nine levels; level 3 has 32-texel faces. *)
Lemma environment_levels_witness :
  length (filaweb.envUploads 256 9) = 9%nat
  ∧ filaweb.envUploads 256 9 !! 3%nat
    = Some (filaweb.mkImageUpload 3 24576
              (filaweb.mkFaceOffsets 0 4096 8192 12288 16384 20480)).
Proof.
  destruct (environment_levels_uploaded_back_to_back 256 9) as [Hlen Hlevels];
    [lia | lia |].
  split; [exact Hlen |].
  apply (Hlevels 3). lia.
Defined.
